(** * PortfolioBuddy: a shallow embedding of [portfolio_types.py], [tools.py]
    and [agent.py], and the properties of the specification proved on it.

    Conventions of the embedding.
    - A Python [float] is an IEEE binary64 number: Rocq's primitive [float].
      Comparisons, [+], [-] and [*] are the IEEE operations; [/] between
      Python floats raises [ZeroDivisionError] on a zero divisor
      ([truediv]). The price of a quote is a [numpy.float64], and so is
      every number computed from it: there [/] is the IEEE quotient and does
      not raise ([np_truediv]).
    - A Python [str] is a [string]; [lower], [upper] and [strip] act on the
      ASCII range and leave other bytes alone: they are Python's on ASCII
      texts, and a property that rests on them is stated for such texts.
    - A [dict] used as a map is a [gmap]; a [TypedDict] is a record.
    - Code that can raise returns a [result]; a [try]/[except] is [catch].
    - What lies outside the repository (the quote provider, the news provider,
      the language model, the JSON parser, [float(str)], the formatting of a
      float by an f-string, the order chosen by [sorted]) is a method of a
      class ([Builtins], [Formats], [YahooFinance], [News], [LanguageModel],
      [Collaborators]): every property holds for every instance. *)

From Stdlib Require Import ZArith Bool List String Ascii Floats Lia.
From stdpp Require Import base option list gmap strings.
Import ListNotations.
Import SpecFloat.

Set Warnings "-inexact-float,-register-all".
Local Open Scope list_scope.

(** ** Python primitives *)

Module Py.

(** Exceptions the modelled code meets. [OtherError] stands for any other
    subclass of [Exception] (I/O, network, decoding, provider errors). *)
Inductive exn : Type :=
| ZeroDivisionError
| TypeError
| ValueError
| KeyError
| AttributeError
| IndexError
| JSONDecodeError
| OtherError (tag : string).

Inductive result (A : Type) : Type :=
| Ok (a : A)
| Raise (e : exn).
Arguments Ok {A} a.
Arguments Raise {A} e.

#[global] Instance result_bind : MBind result := fun A B k r =>
  match r with
  | Ok a => k a
  | Raise e => Raise e
  end.

#[global] Instance result_ret : MRet result := fun A a => Ok a.

(** [try: body except Exception: handler] *)
Definition catch {A} (body : result A) (handler : exn -> A) : A :=
  match body with
  | Ok a => a
  | Raise e => handler e
  end.

(** [try: body except (E1, E2): handler]; other exceptions propagate. *)
Definition catch_only {A} (caught : exn -> bool) (body : result A)
    (handler : exn -> result A) : result A :=
  match body with
  | Ok a => Ok a
  | Raise e => if caught e then handler e else Raise e
  end.

Definition is_ok {A} (r : result A) : bool :=
  match r with Ok _ => true | Raise _ => false end.

(** *** Floats *)

Abbreviation float := PrimFloat.float.

Definition gt (a b : float) : bool := PrimFloat.ltb b a.
Definition lt (a b : float) : bool := PrimFloat.ltb a b.
Definition ne (a b : float) : bool := negb (PrimFloat.eqb a b).

(** [min(a, b)]: the builtin keeps its first argument unless the second
    compares strictly below it; [max(a, b)] likewise with [>]. *)
Definition min (a b : float) : float := if lt b a then b else a.
Definition max (a b : float) : float := if gt b a then b else a.

(** A specification float that is a zero of either sign. *)
Definition is_zero (x : SpecFloat.spec_float) : bool :=
  match x with SpecFloat.S754_zero _ => true | _ => false end.

(** [a / b] on Python floats. *)
Definition truediv (a b : float) : result float :=
  if PrimFloat.eqb b 0%float then Raise ZeroDivisionError
  else Ok (PrimFloat.div a b).

(** [a / b] when one of the two is a [numpy.float64]: the IEEE quotient. A
    zero divisor gives an infinity or NaN; numpy warns and does not raise. *)
Definition np_truediv (a b : float) : float := PrimFloat.div a b.

(** [float(n)] for a non-negative [int] below [2^63] (a count of
    characters or list items always is). *)
Definition float_of_nat (n : nat) : float :=
  PrimFloat.of_uint63 (Uint63.of_Z (Z.of_nat n)).

(** *** Strings *)

(** [str.lower()] and [str.upper()] as they act on ASCII texts: the letters
    [A]..[Z] and [a]..[z] are mapped, every other byte is left alone. *)
Definition lower_ascii (c : ascii) : ascii :=
  let n := nat_of_ascii c in
  if (65 <=? n)%nat && (n <=? 90)%nat then ascii_of_nat (n + 32) else c.

Definition upper_ascii (c : ascii) : ascii :=
  let n := nat_of_ascii c in
  if (97 <=? n)%nat && (n <=? 122)%nat then ascii_of_nat (n - 32) else c.

Fixpoint map_string (f : ascii -> ascii) (s : string) : string :=
  match s with
  | EmptyString => EmptyString
  | String c rest => String (f c) (map_string f rest)
  end.

Definition lower : string -> string := map_string lower_ascii.
Definition upper : string -> string := map_string upper_ascii.

(** Whitespace of [str.strip()] in the ASCII range: space, [\t], [\n],
    [\v], [\f], [\r] and the separators [\x1c]..[\x1f]. *)
Definition is_space (c : ascii) : bool :=
  let n := nat_of_ascii c in
  (n =? 32)%nat || ((9 <=? n)%nat && (n <=? 13)%nat)
  || ((28 <=? n)%nat && (n <=? 31)%nat).

Fixpoint lstrip (s : string) : string :=
  match s with
  | EmptyString => EmptyString
  | String c rest => if is_space c then lstrip rest else s
  end.

(** [rstrip] keeps a character when it is not a space or when something
    is kept after it. *)
Fixpoint rstrip (s : string) : string :=
  match s with
  | EmptyString => EmptyString
  | String c rest =>
      match rstrip rest with
      | EmptyString => if is_space c then EmptyString else String c EmptyString
      | kept => String c kept
      end
  end.

Definition strip (s : string) : string := rstrip (lstrip s).

(** [sub in text] *)
Fixpoint contains (sub text : string) : bool :=
  String.prefix sub text ||
  match text with
  | EmptyString => false
  | String _ rest => contains sub rest
  end.

(** [text.count(sub)]: occurrences that do not overlap, scanned from the
    left; [skip] characters of the last match are still to be passed.
    For the empty [sub] Python answers [len(text) + 1]. *)
Fixpoint count_scan (skip : nat) (sub text : string) : nat :=
  match text with
  | EmptyString => 0
  | String _ rest =>
      match skip with
      | S k => count_scan k sub rest
      | O =>
          if String.prefix sub text
          then S (count_scan (String.length sub - 1) sub rest)
          else count_scan 0 sub rest
      end
  end.

Definition count (text sub : string) : nat :=
  match sub with
  | EmptyString => S (String.length text)
  | _ => count_scan 0 sub text
  end.

(** [sep.join(parts)] *)
Definition join (sep : string) (parts : list string) : string :=
  String.concat sep parts.

(** [sum(1 for x in xs if p x)] *)
Definition sum_ones {A} (p : A -> bool) (xs : list A) : nat :=
  fold_left (fun acc x => if p x then acc + 1 else acc)%nat xs 0%nat.

End Py.

Import Py.

(** ** portfolio_types.py *)

Inductive SentimentIndicator : Type := POSITIVE | NEUTRAL | NEGATIVE.

Inductive ActionType : Type := BUY | SELL | HOLD | WATCH.

#[global] Instance SentimentIndicator_eq_dec : EqDecision SentimentIndicator.
Proof. solve_decision. Defined.

#[global] Instance ActionType_eq_dec : EqDecision ActionType.
Proof. solve_decision. Defined.

Record PortfolioHolding : Type := mkHolding {
  symbol : string;
  quantity : float;
  avg_cost : float;
  current_price : option float;
  value : option float;
  gain_loss : option float;
  gain_loss_percent : option float
}.

Record PortfolioData : Type := mkPortfolio {
  holdings : list PortfolioHolding;
  total_value : option float;
  total_gain_loss : option float;
  total_gain_loss_percent : option float;
  last_updated : option Z
}.

Record NewsItem : Type := mkNews {
  title : string;
  content : string;
  source : string;
  url : string;
  published_at : Z;
  sentiment : SentimentIndicator;
  relevance_score : float
}.

Record MarketData : Type := mkMarket {
  md_symbol : string;
  price : float;
  change : float;
  change_percent : float;
  volume : Z;
  market_cap : option float;
  pe_ratio : option float;
  day_high : option float;
  day_low : option float
}.

(** A value of the [technical_indicators] mapping. *)
Inductive indicator : Type :=
| IFloat (f : float)
| IInt (n : Z)
| IOptFloat (o : option float).

Record AnalysisResult : Type := mkAnalysis {
  ar_symbol : string;
  ar_current_price : float;
  ar_sentiment : SentimentIndicator;
  news_summary : list NewsItem;
  technical_indicators : gmap string indicator;
  recommendation : ActionType;
  confidence : float;
  reasoning : string
}.

(** ** tools.py *)

(** Builtins of the language that the embedding leaves abstract. *)
Class Builtins : Type := {
  (** [f"{x:.1f}"] *)
  format_1f : float -> string;
  (** [float(s)] on a string; [None] when it raises [ValueError]. *)
  float_of_str : string -> option float;
  (** [datetime.now()] *)
  datetime_now : Z
}.

(** *** CSVPortfolioManager *)

(** A row as [csv.DictReader] yields it: header names to cells; the cell of
    a row shorter than the header is [None] (the reader's [restval]). *)
Abbreviation csv_row := (gmap string (option string)).

(** What [get_portfolio_data] finds at [csv_file_path]: no file; a file that
    [open] refuses; or a file whose reader yields [rows] and then stops,
    normally or ([read_error]) by raising. *)
Inductive ledger_file : Type :=
| FileMissing
| OpenRaises (e : exn)
| FileOpened (rows : list csv_row) (read_error : option exn).

Definition empty_portfolio `{!Builtins} : PortfolioData :=
  mkPortfolio [] (Some 0%float) (Some 0%float) (Some 0%float)
    (Some datetime_now).

(** [row.get('Symbol', '').strip()] *)
Definition row_symbol_stripped (row : csv_row) : result string :=
  match row !! "Symbol" with
  | None => Ok (strip "")
  | Some (Some s) => Ok (strip s)
  | Some None => Raise AttributeError
  end.

(** [row['Symbol'].upper().strip()] *)
Definition row_symbol_upper (row : csv_row) : result string :=
  match row !! "Symbol" with
  | None => Raise KeyError
  | Some (Some s) => Ok (strip (upper s))
  | Some None => Raise AttributeError
  end.

(** [float(row[key])] *)
Definition row_float `{!Builtins} (row : csv_row) (key : string)
    : result float :=
  match row !! key with
  | None => Raise KeyError
  | Some None => Raise TypeError
  | Some (Some s) =>
      match float_of_str s with
      | Some f => Ok f
      | None => Raise ValueError
      end
  end.

Definition is_ValueError_or_KeyError (e : exn) : bool :=
  match e with
  | ValueError | KeyError => true
  | _ => false
  end.

(** The body of the [for row in reader] loop: [Ok None] is [continue],
    [Ok (Some h)] is [holdings.append(h)]. *)
Definition read_row `{!Builtins} (row : csv_row)
    : result (option PortfolioHolding) :=
  catch_only is_ValueError_or_KeyError
    (stripped ← row_symbol_stripped row;
     if String.eqb stripped "" then Ok None
     else
       sym ← row_symbol_upper row;
       qty ← row_float row "Quantity";
       cost ← row_float row "Average Cost";
       Ok (Some (mkHolding sym qty cost None None None None)))
    (fun _ => Ok None).

Fixpoint read_rows `{!Builtins} (rows : list csv_row)
    (holdings : list PortfolioHolding) : result (list PortfolioHolding) :=
  match rows with
  | [] => Ok holdings
  | row :: rest =>
      r ← read_row row;
      read_rows rest
        (match r with Some h => holdings ++ [h] | None => holdings end)
  end.

Definition get_portfolio_data `{!Builtins} (file : ledger_file)
    : PortfolioData :=
  catch
    (match file with
     | FileMissing => Ok empty_portfolio
     | OpenRaises e => Raise e
     | FileOpened rows read_error =>
         holdings ← read_rows rows [];
         match read_error with
         | Some e => Raise e
         | None =>
             Ok (mkPortfolio holdings (Some 0%float) (Some 0%float)
                   (Some 0%float) (Some datetime_now))
         end
     end)
    (fun _ => empty_portfolio).

(** *** YahooFinanceManager *)

(** [get_market_data] asks the quote provider; it answers [None] on an empty
    history and on any exception. The [price] of its quote is the last
    close of the history, a [numpy.float64]. *)
Class YahooFinance : Type := {
  get_market_data : string -> option MarketData
}.

Definition get_multiple_market_data `{!YahooFinance} (symbols : list string)
    : gmap string MarketData :=
  fold_left
    (fun data symbol =>
       match get_market_data symbol with
       | Some market_data => <[symbol := market_data]> data
       | None => data
       end)
    symbols ∅.

(** *** NewsManager *)

Class News : Type := {
  get_stock_news : string -> list NewsItem
}.

Definition financial_keywords : list string :=
  ["stock"; "share"; "trading"; "market"; "price"; "investment"; "portfolio"].

Definition _calculate_relevance (text symbol : string) : float :=
  let text_lower := lower text in
  let symbol_lower := lower symbol in
  let symbol_count := count text_lower symbol_lower in
  let keyword_count :=
    sum_ones (fun keyword => contains keyword text_lower) financial_keywords in
  let relevance :=
    (float_of_nat symbol_count * 0.6 + float_of_nat keyword_count * 0.4)%float in
  min relevance 1.0%float.

(** The relevance the gateway stores for an article: [title + ' ' + body]
    is the text. *)
Definition article_relevance (title body symbol : string) : float :=
  _calculate_relevance (title +:+ " " +:+ body) symbol.

(** *** PortfolioAnalyzer *)

(** The vote of [analyze_symbol] over [item['sentiment']] (the block that
    sets [overall_sentiment]). *)
Definition overall_sentiment_of (news_items : list NewsItem)
    : SentimentIndicator :=
  match news_items with
  | _ :: _ =>
      let positive_count :=
        sum_ones (fun item => bool_decide (sentiment item = POSITIVE)) news_items in
      let negative_count :=
        sum_ones (fun item => bool_decide (sentiment item = NEGATIVE)) news_items in
      if (negative_count <? positive_count)%nat then POSITIVE
      else if (positive_count <? negative_count)%nat then NEGATIVE
      else NEUTRAL
  | [] => NEUTRAL
  end.

Definition _generate_recommendation `{!Builtins} (market_data : MarketData)
    (sentiment : SentimentIndicator) (news : list NewsItem)
    (holding : option PortfolioHolding) : ActionType * float * string :=
  let change_percent := change_percent market_data in
  let reasoning_parts : list string := [] in
  (* Base recommendation on price change *)
  let '(base_action, base_confidence, reasoning_parts) :=
    if gt change_percent 5%float then
      (BUY, 0.7%float,
       reasoning_parts ++ ["Price is up " +:+ format_1f change_percent +:+ "%"])
    else if lt change_percent (-5)%float then
      (SELL, 0.7%float,
       reasoning_parts ++
         ["Price is down " +:+ format_1f (PrimFloat.abs change_percent) +:+ "%"])
    else
      (HOLD, 0.5%float, reasoning_parts ++ ["Price is relatively stable"]) in
  (* Adjust based on sentiment *)
  let '(base_action, base_confidence, reasoning_parts) :=
    if bool_decide (sentiment = POSITIVE) then
      let '(base_action, base_confidence) :=
        if bool_decide (base_action = BUY) then
          (base_action, min (base_confidence + 0.2)%float 1.0%float)
        else if bool_decide (base_action = SELL) then
          (HOLD, max (base_confidence - 0.2)%float 0.1%float)
        else (base_action, base_confidence) in
      (base_action, base_confidence,
       reasoning_parts ++ ["Positive news sentiment"])
    else if bool_decide (sentiment = NEGATIVE) then
      let '(base_action, base_confidence) :=
        if bool_decide (base_action = SELL) then
          (base_action, min (base_confidence + 0.2)%float 1.0%float)
        else if bool_decide (base_action = BUY) then
          (HOLD, max (base_confidence - 0.2)%float 0.1%float)
        else (base_action, base_confidence) in
      (base_action, base_confidence,
       reasoning_parts ++ ["Negative news sentiment"])
    else (base_action, base_confidence, reasoning_parts) in
  (* Consider holding performance *)
  let '(base_action, base_confidence, reasoning_parts) :=
    match holding with
    | Some h =>
        match gain_loss_percent h with
        | Some gain_loss_percent =>
            if gt gain_loss_percent 20%float then
              let reasoning_parts :=
                reasoning_parts ++
                  ["You have " +:+ format_1f gain_loss_percent +:+ "% gains"] in
              if bool_decide (base_action = BUY) then
                (HOLD, max (base_confidence - 0.1)%float 0.3%float,
                 reasoning_parts)
              else (base_action, base_confidence, reasoning_parts)
            else if lt gain_loss_percent (-20)%float then
              (base_action, base_confidence,
               reasoning_parts ++
                 ["You have " +:+ format_1f (PrimFloat.abs gain_loss_percent)
                    +:+ "% losses"])
            else (base_action, base_confidence, reasoning_parts)
        | None => (base_action, base_confidence, reasoning_parts)
        end
    | None => (base_action, base_confidence, reasoning_parts)
    end in
  let reasoning := join ". " reasoning_parts +:+ "." in
  (base_action, base_confidence, reasoning).

Definition analyze_symbol `{!Builtins, !YahooFinance, !News} (symbol : string)
    (holding : option PortfolioHolding) : AnalysisResult :=
  match get_market_data symbol with
  | None =>
      mkAnalysis symbol 0.0%float NEUTRAL [] ∅ WATCH 0.0%float
        "Unable to fetch market data"
  | Some market_data =>
      let news_items := get_stock_news symbol in
      let overall_sentiment := overall_sentiment_of news_items in
      let '(recommendation, confidence, reasoning) :=
        _generate_recommendation market_data overall_sentiment news_items
          holding in
      mkAnalysis symbol (price market_data) overall_sentiment
        (take 3 news_items)
        (<["change_percent" := IFloat (change_percent market_data)]>
           (<["volume" := IInt (volume market_data)]>
              (<["pe_ratio" := IOptFloat (pe_ratio market_data)]> ∅)))
        recommendation confidence reasoning
  end.

(** The body of the [for holding in portfolio['holdings']] loop for a
    holding whose symbol is in [market_data_dict]: the four assignments, in
    order. The price of a quote is [history['Close'].iloc[-1]], a
    [numpy.float64], and so is everything computed from it: the division by
    [avg_cost] is numpy's and does not raise. *)
Definition enrich_holding (market_data : MarketData)
    (holding : PortfolioHolding) : PortfolioHolding :=
  let price := price market_data in
  let value := (quantity holding * price)%float in
  let gain_loss := ((price - avg_cost holding) * quantity holding)%float in
  let gain_loss_percent :=
    (np_truediv (price - avg_cost holding) (avg_cost holding) * 100)%float in
  mkHolding (symbol holding) (quantity holding) (avg_cost holding)
    (Some price) (Some value) (Some gain_loss) (Some gain_loss_percent).

(** The loop, threading [total_value] and [total_gain_loss]. *)
Fixpoint enrich_holdings (market_data_dict : gmap string MarketData)
    (holdings : list PortfolioHolding) (total_value total_gain_loss : float)
    : list PortfolioHolding * float * float :=
  match holdings with
  | [] => ([], total_value, total_gain_loss)
  | holding :: rest =>
      match market_data_dict !! symbol holding with
      | Some market_data =>
          let holding' := enrich_holding market_data holding in
          let total_value :=
            (total_value + default 0 (value holding'))%float in
          let total_gain_loss :=
            (total_gain_loss + default 0 (gain_loss holding'))%float in
          let '(rest', total_value, total_gain_loss) :=
            enrich_holdings market_data_dict rest total_value total_gain_loss in
          (holding' :: rest', total_value, total_gain_loss)
      | None =>
          let '(rest', total_value, total_gain_loss) :=
            enrich_holdings market_data_dict rest total_value total_gain_loss in
          (holding :: rest', total_value, total_gain_loss)
      end
  end.

(** The two totals differ only after a quoted holding was added to them, so
    the last division has [numpy.float64] operands as well; the test before
    it keeps its divisor away from zero in any case. *)
Definition update_portfolio_with_market_data `{!Builtins, !YahooFinance}
    (portfolio : PortfolioData) : PortfolioData :=
  let symbols := map symbol (holdings portfolio) in
  let market_data_dict := get_multiple_market_data symbols in
  let '(holdings', total_value, total_gain_loss) :=
    enrich_holdings market_data_dict (holdings portfolio) 0.0%float 0.0%float in
  let total_gain_loss_percent :=
    if ne total_value total_gain_loss
    then (np_truediv total_gain_loss (total_value - total_gain_loss) * 100)%float
    else 0%float in
  mkPortfolio holdings' (Some total_value) (Some total_gain_loss)
    (Some total_gain_loss_percent) (Some datetime_now).

(** ** agent.py *)

(** A value decoded by [json.loads]. An object is kept as its list of
    members; [get] answers the first one with the key. *)
Inductive json : Type :=
| JNull
| JBool (b : bool)
| JInt (n : Z)
| JFloat (f : float)
| JStr (s : string)
| JList (items : list json)
| JDict (members : list (string * json)).

(** Truth value of a decoded value, as [if v:] tests it. *)
Definition truthy (v : json) : bool :=
  match v with
  | JNull => false
  | JBool b => b
  | JInt n => negb (n =? 0)%Z
  | JFloat f => ne f 0%float
  | JStr s => negb (String.eqb s "")
  | JList items => match items with [] => false | _ => true end
  | JDict members => match members with [] => false | _ => true end
  end.

(** [v == s] for a string [s]. *)
Definition eq_str (v : json) (s : string) : bool :=
  match v with
  | JStr s' => String.eqb s' s
  | _ => false
  end.

Fixpoint members_get (members : list (string * json)) (key : string)
    : option json :=
  match members with
  | [] => None
  | (k, v) :: rest => if String.eqb k key then Some v else members_get rest key
  end.

(** [analysis.get(key, default)]; only a [dict] has the method. *)
Definition json_get (analysis : json) (key : string) (default : json)
    : result json :=
  match analysis with
  | JDict members => Ok (match members_get members key with
                         | Some v => v
                         | None => default
                         end)
  | _ => Raise AttributeError
  end.

(** [for x in v]: the items of a list, the characters of a string, the
    keys of an object; anything else is not iterable. *)
Definition json_iter (v : json) : result (list json) :=
  match v with
  | JList items => Ok items
  | JStr s => Ok (map (fun c => JStr (String c EmptyString)) (list_ascii_of_string s))
  | JDict members => Ok (map (fun kv => JStr (fst kv)) members)
  | _ => Raise TypeError
  end.

(** [re.search(r'\{.*\}', content, re.DOTALL)]: from the first opening
    brace to the last closing brace after it. *)
Fixpoint from_first_open (s : string) : option string :=
  match s with
  | EmptyString => None
  | String c rest =>
      if Ascii.eqb c "{"%char then Some rest else from_first_open rest
  end.

Fixpoint through_last_close (s : string) : option string :=
  match s with
  | EmptyString => None
  | String c rest =>
      match through_last_close rest with
      | Some kept => Some (String c kept)
      | None =>
          if Ascii.eqb c "}"%char then Some (String c EmptyString) else None
      end
  end.

Definition re_search_record (content : string) : option string :=
  rest ← from_first_open content;
  kept ← through_last_close rest;
  Some (String "{"%char kept).

Record Message : Type := mkMessage {
  role : string;
  msg_content : string;
  timestamp : Z
}.

(** [state["user_context"]]: the keys the agent writes; [None] is a key
    that is not in the mapping. *)
Record UserContext : Type := mkContext {
  intent : option json;
  symbols : option json;
  requires_portfolio : option json;
  all_analyses : option (list AnalysisResult)
}.

Record AgentState : Type := mkState {
  messages : list Message;
  portfolio_data : option PortfolioData;
  current_analysis : option AnalysisResult;
  user_context : UserContext;
  last_action : option string
}.

(** The language model and the texts sent to it. *)
Class LanguageModel : Type := {
  (** [(await self.llm.ainvoke([HumanMessage(content=prompt)])).content] *)
  llm_ainvoke : string -> result string;
  (** [json.loads]; [None] when it raises. *)
  json_loads : string -> option json;
  (** The classification prompt around the latest message. *)
  classify_prompt : string -> string;
  (** The context block of [_generate_response] (portfolio summary,
      performers, analysis, news): it reads the state and may raise. *)
  render_context : AgentState -> result string;
  (** The synthesis prompt around message, intent and context block. *)
  response_prompt : string -> json -> string -> string
}.

(** [self.csv_manager] and [self.portfolio_analyzer], through the methods
    the agent calls. A symbol taken from the model's reply can be any
    decoded value. *)
Class Collaborators : Type := {
  csv_get_portfolio_data : result PortfolioData;
  pa_update_portfolio_with_market_data : PortfolioData -> result PortfolioData;
  pa_analyze_symbol : json -> option PortfolioHolding -> result AnalysisResult
}.

Definition set_classification (state : AgentState) (i s r : json)
    : AgentState :=
  mkState (messages state) (portfolio_data state) (current_analysis state)
    (mkContext (Some i) (Some s) (Some r)
       (all_analyses (user_context state)))
    (last_action state).

Definition set_portfolio_data (state : AgentState) (p : option PortfolioData)
    : AgentState :=
  mkState (messages state) p (current_analysis state) (user_context state)
    (last_action state).

Definition set_current_analysis (state : AgentState)
    (a : option AnalysisResult) : AgentState :=
  mkState (messages state) (portfolio_data state) a (user_context state)
    (last_action state).

Definition set_all_analyses (state : AgentState) (l : list AnalysisResult)
    : AgentState :=
  mkState (messages state) (portfolio_data state) (current_analysis state)
    (mkContext (intent (user_context state)) (symbols (user_context state))
       (requires_portfolio (user_context state)) (Some l))
    (last_action state).

Definition append_message (state : AgentState) (m : Message) : AgentState :=
  mkState (messages state ++ [m]) (portfolio_data state)
    (current_analysis state) (user_context state) (last_action state).

(** [state["messages"][-1]["content"]] *)
Definition latest_content (state : AgentState) : result string :=
  match last (messages state) with
  | Some m => Ok (msg_content m)
  | None => Raise IndexError
  end.

Definition fallback_intent : json := JStr "general_question".
Definition fallback_symbols : json := JList [].
Definition fallback_requires_portfolio : json := JBool false.

Definition _process_message `{!LanguageModel} (state : AgentState)
    : result AgentState :=
  latest_message ← latest_content state;
  let prompt := classify_prompt latest_message in
  Ok (catch
        (response ← llm_ainvoke prompt;
         let content := strip response in
         analysis ←
           match json_loads (match re_search_record content with
                             | Some json_str => json_str
                             | None => content
                             end) with
           | Some v => Ok v
           | None => Raise JSONDecodeError
           end;
         i ← json_get analysis "intent" fallback_intent;
         s ← json_get analysis "symbols" fallback_symbols;
         r ← json_get analysis "requires_portfolio" fallback_requires_portfolio;
         Ok (set_classification state i s r))
        (fun _ =>
           set_classification state fallback_intent fallback_symbols
             fallback_requires_portfolio)).

Inductive node : Type :=
| process_message
| fetch_portfolio
| analyze_portfolio
| generate_response
| END.

#[global] Instance node_eq_dec : EqDecision node.
Proof. solve_decision. Defined.

Definition _should_fetch_portfolio (state : AgentState) : node :=
  if truthy (default (JBool false) (requires_portfolio (user_context state)))
  then fetch_portfolio
  else
    let i := default JNull (intent (user_context state)) in
    if eq_str i "portfolio_query" || eq_str i "stock_analysis"
    then fetch_portfolio
    else generate_response.

Definition _fetch_portfolio `{!Collaborators} (state : AgentState)
    : AgentState :=
  catch
    (portfolio ← csv_get_portfolio_data;
     portfolio ← pa_update_portfolio_with_market_data portfolio;
     Ok (set_portfolio_data state (Some portfolio)))
    (fun _ => set_portfolio_data state None).

(** The [for symbol in symbols_to_analyze] loop. *)
Fixpoint analyze_each `{!Collaborators} (portfolio : PortfolioData)
    (symbols_to_analyze : list json) : result (list AnalysisResult) :=
  match symbols_to_analyze with
  | [] => Ok []
  | sym :: rest =>
      let holding :=
        List.find (fun h => eq_str sym (symbol h)) (holdings portfolio) in
      analysis ← pa_analyze_symbol sym holding;
      analyses ← analyze_each portfolio rest;
      Ok (analysis :: analyses)
  end.

(** The analyses of the [try] block, before they are stored. *)
Definition analyses_for `{!Collaborators} (state : AgentState)
    (portfolio : PortfolioData) : result (list AnalysisResult) :=
  let symbols_to_analyze :=
    default (JList []) (symbols (user_context state)) in
  (* If no specific symbols mentioned, analyze all holdings *)
  to_analyze ←
    (if truthy symbols_to_analyze then json_iter symbols_to_analyze
     else Ok (map (fun holding => JStr (symbol holding))
                (holdings portfolio)));
  analyze_each portfolio to_analyze.

Definition _analyze_portfolio `{!Collaborators} (state : AgentState)
    : AgentState :=
  match portfolio_data state with
  | None => state
  | Some portfolio =>
      catch
        (analyses ← analyses_for state portfolio;
         match analyses with
         | primary :: _ =>
             Ok (set_all_analyses
                   (set_current_analysis state (Some primary)) analyses)
         | [] => Ok state
         end)
        (fun _ => set_current_analysis state None)
  end.

Definition error_response : string :=
  "Sorry, I encountered an error processing your request. Please try again.".

Definition assistant_message `{!Builtins} (text : string) : Message :=
  mkMessage "assistant" text datetime_now.

Definition user_message `{!Builtins} (text : string) : Message :=
  mkMessage "user" text datetime_now.

(** The [try] block up to the model's answer: context, prompt, call. *)
Definition synthesize `{!LanguageModel} (state : AgentState) : result string :=
  latest_message ← latest_content state;
  let intent := default fallback_intent (intent (user_context state)) in
  context ← render_context state;
  let prompt := response_prompt latest_message intent context in
  llm_ainvoke prompt.

Definition _generate_response `{!Builtins, !LanguageModel}
    (state : AgentState) : AgentState :=
  catch
    (response ← synthesize state;
     Ok (append_message state (assistant_message response)))
    (fun _ => append_message state (assistant_message error_response)).

(** The text of the assistant message the Respond step appends. *)
Definition reply_text `{!LanguageModel} (state : AgentState) : string :=
  match synthesize state with
  | Ok response => response
  | Raise _ => error_response
  end.

(** The compiled graph: what a node does, and the edge out of it. *)
Definition run_node `{!Builtins, !LanguageModel, !Collaborators} (n : node)
    (state : AgentState) : result AgentState :=
  match n with
  | process_message => _process_message state
  | fetch_portfolio => Ok (_fetch_portfolio state)
  | analyze_portfolio => Ok (_analyze_portfolio state)
  | generate_response => Ok (_generate_response state)
  | END => Ok state
  end.

Definition next_node (n : node) (state : AgentState) : node :=
  match n with
  | process_message => _should_fetch_portfolio state
  | fetch_portfolio => analyze_portfolio
  | analyze_portfolio => generate_response
  | generate_response => END
  | END => END
  end.

(** The graph runtime gives up after [recursion_limit] steps. *)
Definition recursion_limit : nat := 25.

Fixpoint run_from `{!Builtins, !LanguageModel, !Collaborators} (fuel : nat)
    (n : node) (state : AgentState) (visited : list node)
    : result (AgentState * list node) :=
  match n with
  | END => Ok (state, visited)
  | _ =>
      match fuel with
      | O => Raise (OtherError "GraphRecursionError")
      | S fuel =>
          state ← run_node n state;
          run_from fuel (next_node n state) state (visited ++ [n])
      end
  end.

(** [self.graph.ainvoke(session)], with the nodes it ran, in order. *)
Definition graph_ainvoke `{!Builtins, !LanguageModel, !Collaborators}
    (session : AgentState) : result (AgentState * list node) :=
  run_from recursion_limit process_message session [].

Definition new_session : AgentState :=
  mkState [] None None (mkContext None None None None) None.

Definition get_or_create_session (user_sessions : gmap Z AgentState)
    (user_id : Z) : gmap Z AgentState * AgentState :=
  match user_sessions !! user_id with
  | Some session => (user_sessions, session)
  | None => (<[user_id := new_session]> user_sessions, new_session)
  end.

(** One turn: the sessions afterwards and the text sent back, if any. *)
Definition process_telegram_message
    `{!Builtins, !LanguageModel, !Collaborators}
    (user_sessions : gmap Z AgentState) (user_id : Z) (message_text : string)
    : gmap Z AgentState * option string :=
  let '(user_sessions, session) := get_or_create_session user_sessions user_id in
  let session := append_message session (user_message message_text) in
  let user_sessions := <[user_id := session]> user_sessions in
  catch
    (r ← graph_ainvoke session;
     let result := fst r in
     Ok (<[user_id := result]> user_sessions,
         match last (messages result) with
         | Some latest_message =>
             if String.eqb (role latest_message) "assistant"
             then Some (msg_content latest_message)
             else None
         | None => None
         end))
    (fun _ => (user_sessions,
               Some "Sorry, I encountered an error. Please try again.")).

(** ** The specification's wording, as definitions

    Each definition below follows a sentence of the specification, not the
    code; the theorems compare the two. *)

Module Spec.

(** *** Recommendation engine: three rules applied in order *)

Record verdict : Type := mkVerdict {
  action : ActionType;
  conf : float;
  fragments : list string
}.

(** "capped at [hi]" and "floored at [lo]". *)
Definition capped (hi x : float) : float :=
  if PrimFloat.ltb hi x then hi else x.

Definition floored (lo x : float) : float :=
  if PrimFloat.ltb x lo then lo else x.

(** Rule 1: base action from the percent change. *)
Definition base_rule `{!Builtins} (quote : MarketData) : verdict :=
  let cp := change_percent quote in
  if PrimFloat.ltb 5 cp then
    mkVerdict BUY 0.7 ["Price is up " +:+ format_1f cp +:+ "%"]
  else if PrimFloat.ltb cp (-5) then
    mkVerdict SELL 0.7
      ["Price is down " +:+ format_1f (PrimFloat.abs cp) +:+ "%"]
  else mkVerdict HOLD 0.5 ["Price is relatively stable"].

(** Rule 2: [agree] gains 0.2 capped at 1.0, [oppose] becomes HOLD and loses
    0.2 floored at 0.1; the fragment is appended in every case. *)
Definition sentiment_adjust (agree oppose : ActionType) (fragment : string)
    (v : verdict) : verdict :=
  let frags := fragments v ++ [fragment] in
  if bool_decide (action v = agree) then
    mkVerdict (action v) (capped 1.0 (conf v + 0.2)) frags
  else if bool_decide (action v = oppose) then
    mkVerdict HOLD (floored 0.1 (conf v - 0.2)) frags
  else mkVerdict (action v) (conf v) frags.

Definition sentiment_rule (s : SentimentIndicator) (v : verdict) : verdict :=
  match s with
  | POSITIVE => sentiment_adjust BUY SELL "Positive news sentiment" v
  | NEGATIVE => sentiment_adjust SELL BUY "Negative news sentiment" v
  | NEUTRAL => v
  end.

(** Rule 3: a holding with more than 20% gains dampens a BUY; one with more
    than 20% losses only adds its fragment. *)
Definition holding_rule `{!Builtins} (holding : option PortfolioHolding)
    (v : verdict) : verdict :=
  match holding ≫= gain_loss_percent with
  | Some glp =>
      if PrimFloat.ltb 20 glp then
        let frags :=
          fragments v ++ ["You have " +:+ format_1f glp +:+ "% gains"] in
        match action v with
        | BUY => mkVerdict HOLD (floored 0.3 (conf v - 0.1)) frags
        | a => mkVerdict a (conf v) frags
        end
      else if PrimFloat.ltb glp (-20) then
        mkVerdict (action v) (conf v)
          (fragments v ++
             ["You have " +:+ format_1f (PrimFloat.abs glp) +:+ "% losses"])
      else v
  | None => v
  end.

Definition recommend `{!Builtins} (quote : MarketData)
    (s : SentimentIndicator) (news : list NewsItem)
    (holding : option PortfolioHolding) : ActionType * float * string :=
  let v := holding_rule holding (sentiment_rule s (base_rule quote)) in
  (action v, conf v, String.concat ". " (fragments v) +:+ ".").

(** *** Aggregate sentiment *)

Definition votes (label : SentimentIndicator)
    (labels : list SentimentIndicator) : nat :=
  length (filter (fun l => l = label) labels).

(** "Majority vote over the per-article sentiment labels, ties yield
    NEUTRAL": the label with strictly the most votes, NEUTRAL when no label
    has. *)
Definition majority_vote (labels : list SentimentIndicator)
    : SentimentIndicator :=
  let p := votes POSITIVE labels in
  let u := votes NEUTRAL labels in
  let n := votes NEGATIVE labels in
  if (n <? p)%nat && (u <? p)%nat then POSITIVE
  else if (p <? n)%nat && (u <? n)%nat then NEGATIVE
  else NEUTRAL.

(** The stricter reading: a label wins with more than half of the votes. *)
Definition absolute_majority (labels : list SentimentIndicator)
    : SentimentIndicator :=
  if (length labels <? 2 * votes POSITIVE labels)%nat then POSITIVE
  else if (length labels <? 2 * votes NEGATIVE labels)%nat then NEGATIVE
  else NEUTRAL.

(** What the code computes: only POSITIVE and NEGATIVE labels vote. *)
Definition polarity_vote (labels : list SentimentIndicator)
    : SentimentIndicator :=
  let p := votes POSITIVE labels in
  let n := votes NEGATIVE labels in
  if (n <? p)%nat then POSITIVE
  else if (p <? n)%nat then NEGATIVE
  else NEUTRAL.

(** *** Ledger reader *)

(** The text of a column in a row, when the row has one. *)
Definition cell_text (row : csv_row) (key : string) : option string :=
  row !! key ≫= id.

(** "Each well-formed row yields one Holding with symbol uppercased and
    trimmed and quantity and average cost parsed as floats; rows with a
    blank symbol are skipped; rows that fail numeric parsing are skipped." *)
Definition row_holding `{!Builtins} (row : csv_row)
    : option PortfolioHolding :=
  sym ← cell_text row "Symbol";
  if String.eqb (strip sym) "" then None
  else
    qty ← cell_text row "Quantity" ≫= float_of_str;
    cost ← cell_text row "Average Cost" ≫= float_of_str;
    Some (mkHolding (strip (upper sym)) qty cost None None None None).

(** A row that is not shorter than the header in the columns read. *)
Definition complete_row (row : csv_row) : Prop :=
  row !! "Symbol" ≠ Some None ∧ row !! "Quantity" ≠ Some None
  ∧ row !! "Average Cost" ≠ Some None.

(** *** Intent classifier *)

Record classification : Type := mkClassification {
  c_intent : json;
  c_symbols : json;
  c_requires_portfolio : json
}.

(** "{intent: general_question, symbols: [], requires_portfolio: false}" *)
Definition fallback : classification :=
  mkClassification (JStr "general_question") (JList []) (JBool false).

(** What the classifier left in the session. *)
Definition classified (state : AgentState) : option classification :=
  i ← intent (user_context state);
  s ← symbols (user_context state);
  r ← requires_portfolio (user_context state);
  Some (mkClassification i s r).

(** A parsed record, each absent field taking its own default. *)
Definition field_defaults (members : list (string * json)) : classification :=
  mkClassification
    (default (JStr "general_question") (members_get members "intent"))
    (default (JList []) (members_get members "symbols"))
    (default (JBool false) (members_get members "requires_portfolio")).

(** The text handed to the parser: the record found in the reply, or the
    whole reply when none is found. *)
Definition record_text (content : string) : string :=
  default content (re_search_record content).

(** "Proceed to FetchPortfolio if requires_portfolio is set or intent is
    portfolio_query or stock_analysis." *)
Definition wants_portfolio (c : classification) : bool :=
  truthy (c_requires_portfolio c)
  || eq_str (c_intent c) "portfolio_query"
  || eq_str (c_intent c) "stock_analysis".

(** *** Portfolio aggregates *)

(** "Holdings that received a quote". *)
Definition received_quote (quotes : gmap string MarketData)
    (h : PortfolioHolding) : Prop :=
  is_Some (quotes !! symbol h).

(** A sum of floats, taken in list order from 0. *)
Definition fsum (l : list float) : float := fold_left PrimFloat.add l 0%float.

(** "The sum of [field] over the holdings that received a quote". *)
Definition sum_over_quoted (quotes : gmap string MarketData)
    (field : PortfolioHolding -> option float)
    (hs : list PortfolioHolding) : float :=
  fsum (omap field (filter (received_quote quotes) hs)).

(** "All derived fields absent". *)
Definition unenriched (h : PortfolioHolding) : Prop :=
  current_price h = None ∧ value h = None ∧ gain_loss h = None
  ∧ gain_loss_percent h = None.

(** "total_gain_loss / (total_value - total_gain_loss) x 100, except that
    when the two are equal the result is 0". *)
Definition aggregate_percent (total_value total_gain_loss : float) : float :=
  if PrimFloat.eqb total_value total_gain_loss then 0%float
  else (total_gain_loss / (total_value - total_gain_loss) * 100)%float.

(** The state of a snapshot after enrichment with the batch [quotes]. *)
Record enriched_with (quotes : gmap string MarketData)
    (before after : PortfolioData) : Prop := mkEnriched {
  same_positions :
    length (holdings after) = length (holdings before);
  unquoted_untouched :
    ∀ (i : nat) (h : PortfolioHolding),
      holdings before !! i = Some h → quotes !! symbol h = None →
      holdings after !! i = Some h;
  unquoted_stay_absent :
    ∀ (i : nat) (h h' : PortfolioHolding),
      holdings before !! i = Some h → holdings after !! i = Some h' →
      quotes !! symbol h = None → unenriched h → unenriched h';
  total_value_is_sum :
    total_value after = Some (sum_over_quoted quotes value (holdings after));
  total_gain_loss_is_sum :
    total_gain_loss after
    = Some (sum_over_quoted quotes gain_loss (holdings after));
  percent_is_guarded_ratio :
    total_gain_loss_percent after
    = Some (aggregate_percent
              (sum_over_quoted quotes value (holdings after))
              (sum_over_quoted quotes gain_loss (holdings after)))
}.

(** *** Relevance score *)

(** "Count of symbol mentions in title+body, case-insensitive". *)
Definition symbol_mentions (text symbol : string) : nat :=
  count (lower text) (lower symbol).

(** "Count of distinct financial keywords present": the size of the set of
    keywords that occur in the text. *)
Definition keyword_set : gset string :=
  {[ "stock"; "share"; "trading"; "market"; "price"; "investment";
     "portfolio" ]}.

Definition keywords_present (text : string) : nat :=
  size (filter (fun k => contains k (lower text) = true) keyword_set).

Definition fmin (a b : float) : float := if PrimFloat.ltb a b then a else b.

Definition relevance (text symbol : string) : float :=
  fmin 1.0
    (0.6 * float_of_nat (symbol_mentions text symbol)
     + 0.4 * float_of_nat (keywords_present text))%float.

End Spec.

(** ** Derived notions used by the further properties *)

(** Whether the caller holds the symbol with gains above 20 percent. *)
Definition large_gains (holding : option PortfolioHolding) : bool :=
  match holding ≫= gain_loss_percent with
  | Some glp => gt glp 20%float
  | None => false
  end.

(** A specification float that is neither NaN nor negative. *)
Definition nonneg (x : spec_float) : bool :=
  match x with
  | S754_zero _ => true
  | S754_infinity s => negb s
  | S754_nan => false
  | S754_finite s _ _ => negb s
  end.

(** A float that is neither an infinity nor NaN. *)
Definition finite (x : float) : bool :=
  match Prim2SF x with
  | S754_zero _ | S754_finite _ _ _ => true
  | S754_infinity _ | S754_nan => false
  end.

(** A text of ASCII characters only. *)
Definition is_ascii (s : string) : bool :=
  forallb (fun c => (nat_of_ascii c <? 128)%nat) (list_ascii_of_string s).

(** A ledger whose symbol cells are ASCII texts. *)
Definition ascii_symbols (file : ledger_file) : bool :=
  match file with
  | FileOpened rows _ =>
      forallb (fun row : csv_row =>
                 match row !! "Symbol" with
                 | Some (Some sym) => is_ascii sym
                 | _ => true
                 end) rows
  | _ => true
  end.

(** A specification float that is finite and above zero. *)
Definition positive_finite (x : spec_float) : bool :=
  match x with
  | S754_finite false _ _ => true
  | _ => false
  end.

(** ** portfolio_types.py: the values of the enumerations *)

Definition sentiment_value (s : SentimentIndicator) : string :=
  match s with
  | POSITIVE => "positive"
  | NEUTRAL => "neutral"
  | NEGATIVE => "negative"
  end.

Definition action_value (a : ActionType) : string :=
  match a with
  | BUY => "buy"
  | SELL => "sell"
  | HOLD => "hold"
  | WATCH => "watch"
  end.

(** ** agent.py: the context block of [_generate_response] *)

(** Formatting and sorting builtins that the embedding leaves abstract. A
    format applied to [None] raises [TypeError]; that part is modelled. *)
Class Formats : Type := {
  (** [f"{x:,.2f}"] *)
  format_money : float -> string;
  (** [f"{x:.2f}"] *)
  format_2f : float -> string;
  (** [f"{x:.1%}"] *)
  format_percent : float -> string;
  (** [f"{n}"] for the length of a list *)
  format_len : nat -> string;
  (** The order in which [sorted(holdings, key=..., reverse=r)] returns
      holdings whose keys are all floats. *)
  sorted_order : bool -> list PortfolioHolding -> list PortfolioHolding;
  (** Sorting rearranges; it neither drops nor invents an element. *)
  sorted_order_permutation :
    forall (reverse : bool) (hs : list PortfolioHolding),
      sorted_order reverse hs ≡ₚ hs
}.

(** A format specification applied to an optional float. *)
Definition format_opt (format : float -> string) (v : option float)
    : result string :=
  match v with
  | Some x => Ok (format x)
  | None => Raise TypeError
  end.

(** [sorted(holdings, key=lambda x: x.get("gain_loss_percent", 0),
    reverse=r)]. Every holding has the key, so the default is never used;
    comparing [None] with anything raises [TypeError], and with two
    elements or more every element is compared. *)
Definition sorted_by_gain `{!Formats} (reverse : bool)
    (hs : list PortfolioHolding) : result (list PortfolioHolding) :=
  if (2 <=? length hs)%nat
     && existsb (fun h => bool_decide (gain_loss_percent h = None)) hs
  then Raise TypeError
  else Ok (sorted_order reverse hs).

Definition newline : string := String (ascii_of_nat 10) EmptyString.

Definition indent : string := "                ".

Definition sentiment_emoji (s : SentimentIndicator) : string :=
  match s with
  | POSITIVE => "🟢"
  | NEUTRAL => "🟡"
  | NEGATIVE => "🔴"
  end.

Definition action_emoji (a : ActionType) : string :=
  match a with
  | BUY => "📈"
  | SELL => "📉"
  | HOLD => "⏸️"
  | WATCH => "👀"
  end.

(** [f"- {holding['symbol']}: {holding.get('gain_loss_percent', 0):.1f}%"] *)
Definition performer_line `{!Builtins} (holding : PortfolioHolding)
    : result string :=
  percent ← format_opt format_1f (gain_loss_percent holding);
  Ok ("- " +:+ symbol holding +:+ ": " +:+ percent +:+ "%").

Fixpoint performer_lines `{!Builtins} (hs : list PortfolioHolding)
    : result (list string) :=
  match hs with
  | [] => Ok []
  | holding :: rest =>
      line ← performer_line holding;
      lines ← performer_lines rest;
      Ok (line :: lines)
  end.

(** The parts added when [state["portfolio_data"]] is set. *)
Definition portfolio_parts `{!Builtins, !Formats} (portfolio : PortfolioData)
    : result (list string) :=
  value ← format_opt format_money (total_value portfolio);
  gain ← format_opt format_money (total_gain_loss portfolio);
  percent ← format_opt format_1f (total_gain_loss_percent portfolio);
  let summary :=
    newline +:+ indent +:+ "Portfolio Summary:" +:+ newline
    +:+ indent +:+ "- Total Value: $" +:+ value +:+ newline
    +:+ indent +:+ "- Total Gain/Loss: $" +:+ gain
    +:+ " (" +:+ percent +:+ "%)" +:+ newline
    +:+ indent +:+ "- Holdings: "
    +:+ format_len (length (holdings portfolio)) +:+ " stocks" +:+ newline
    +:+ indent in
  match holdings portfolio with
  | [] => Ok [summary]
  | _ :: _ =>
      top ← sorted_by_gain true (holdings portfolio);
      worst ← sorted_by_gain false (holdings portfolio);
      let top_performers := take 3 top in
      let worst_performers := take 3 worst in
      top_lines ← performer_lines top_performers;
      worst_lines ← performer_lines worst_performers;
      Ok ([summary] ++ ["Top Performers:"] ++ top_lines
          ++ ["Worst Performers:"] ++ worst_lines)
  end.

(** The parts added when [state["current_analysis"]] is set. *)
Definition analysis_parts `{!Formats} (analysis : AnalysisResult)
    : list string :=
  let block :=
    newline +:+ indent +:+ "Analysis for " +:+ ar_symbol analysis +:+ ":"
    +:+ newline
    +:+ indent +:+ "- Current Price: $"
    +:+ format_2f (ar_current_price analysis) +:+ newline
    +:+ indent +:+ "- Sentiment: " +:+ sentiment_emoji (ar_sentiment analysis)
    +:+ " " +:+ sentiment_value (ar_sentiment analysis) +:+ newline
    +:+ indent +:+ "- Recommendation: "
    +:+ action_emoji (recommendation analysis) +:+ " "
    +:+ upper (action_value (recommendation analysis)) +:+ newline
    +:+ indent +:+ "- Confidence: " +:+ format_percent (confidence analysis)
    +:+ newline
    +:+ indent +:+ "- Reasoning: " +:+ reasoning analysis +:+ newline
    +:+ indent in
  match news_summary analysis with
  | [] => [block]
  | _ :: _ =>
      [block] ++ ["Recent News:"]
      ++ map (fun news => "- " +:+ title news) (take 2 (news_summary analysis))
  end.

(** [context = "\n".join(context_parts)] *)
Definition build_context `{!Builtins, !Formats} (state : AgentState)
    : result string :=
  from_portfolio ←
    match portfolio_data state with
    | Some portfolio => portfolio_parts portfolio
    | None => Ok []
    end;
  let from_analysis :=
    match current_analysis state with
    | Some analysis => analysis_parts analysis
    | None => []
    end in
  Ok (join newline (from_portfolio ++ from_analysis)).

(** The agent's language model with its context block spelled out. *)
Definition with_context `{!Builtins, !Formats} (base : LanguageModel)
    : LanguageModel :=
  {| llm_ainvoke := @llm_ainvoke base;
     json_loads := @json_loads base;
     classify_prompt := @classify_prompt base;
     render_context := build_context;
     response_prompt := @response_prompt base |}.

(** ** agent.py: the collaborators the agent constructs *)

(** [CSVPortfolioManager()] over the file at its path and
    [PortfolioAnalyzer()]. [analyze_symbol] is the model above for a string;
    [analyze_other] stands for a call with a symbol that is not one. *)
Definition tools_collaborators `{!Builtins, !YahooFinance, !News}
    (file : ledger_file)
    (analyze_other : json -> option PortfolioHolding -> result AnalysisResult)
    : Collaborators :=
  {| csv_get_portfolio_data := Ok (get_portfolio_data file);
     pa_update_portfolio_with_market_data := fun portfolio =>
       Ok (update_portfolio_with_market_data portfolio);
     pa_analyze_symbol := fun sym holding =>
       match sym with
       | JStr s => Ok (analyze_symbol s holding)
       | _ => analyze_other sym holding
       end |}.

(** A snapshot whose context block can be rendered: the aggregates and
    every holding's gain/loss percentage are set. *)
Definition renderable (portfolio : PortfolioData) : bool :=
  bool_decide (is_Some (total_value portfolio))
  && bool_decide (is_Some (total_gain_loss portfolio))
  && bool_decide (is_Some (total_gain_loss_percent portfolio))
  && forallb (fun h => bool_decide (is_Some (gain_loss_percent h)))
       (holdings portfolio).

(** ** agent.py: the command handlers *)

(** [/portfolio]: the handler adds a request of its own to the session and
    then hands the update to [process_telegram_message], which adds the
    text of the update itself. *)
Definition portfolio_command `{!Builtins, !LanguageModel, !Collaborators}
    (user_sessions : gmap Z AgentState) (user_id : Z) (update_text : string)
    : gmap Z AgentState * option string :=
  let '(user_sessions, session) := get_or_create_session user_sessions user_id in
  let session :=
    append_message session (user_message "Show me my portfolio summary") in
  let user_sessions := <[user_id := session]> user_sessions in
  process_telegram_message user_sessions user_id update_text.

(** [/analyze SYMBOL], with [args] the words after the command. *)
Definition analyze_command `{!Builtins, !LanguageModel, !Collaborators}
    (user_sessions : gmap Z AgentState) (user_id : Z) (update_text : string)
    (args : list string) : gmap Z AgentState * option string :=
  let '(user_sessions, session) := get_or_create_session user_sessions user_id in
  match args with
  | [] =>
      (user_sessions,
       Some "Please provide a stock symbol. Usage: /analyze AAPL")
  | arg :: _ =>
      let sym := upper arg in
      let session :=
        append_message session (user_message ("Analyze " +:+ sym)) in
      let user_sessions := <[user_id := session]> user_sessions in
      process_telegram_message user_sessions user_id update_text
  end.

(** ** Characters of a text *)

(** Whether the character occurs in the text. *)
Fixpoint occurs (c : ascii) (s : string) : bool :=
  match s with
  | EmptyString => false
  | String c' rest => Ascii.eqb c' c || occurs c rest
  end.

(** ** Example inputs *)

(** Three articles, two of them neutral. *)
Definition three_articles : list NewsItem :=
  [ mkNews "Quarterly report due" "" "wire" "" 0 NEUTRAL 0;
    mkNews "Shares unchanged" "" "wire" "" 0 NEUTRAL 0;
    mkNews "Strong demand" "" "wire" "" 0 POSITIVE 0 ].

(** A [float(s)] that reads unsigned decimal integers, which is all the
    examples need. *)
Fixpoint read_digits (s : string) (acc : Z) : option Z :=
  match s with
  | EmptyString => Some acc
  | String c rest =>
      let n := nat_of_ascii c in
      if (48 <=? n)%nat && (n <=? 57)%nat
      then read_digits rest (10 * acc + Z.of_nat (n - 48))
      else None
  end.

Definition example_float_of_str (s : string) : option float :=
  match s with
  | EmptyString => None
  | _ => (fun n => PrimFloat.of_uint63 (Uint63.of_Z n)) <$> read_digits s 0
  end.

Definition example_builtins : Builtins :=
  {| format_1f := fun _ => "?";
     float_of_str := example_float_of_str;
     datetime_now := 0 |}.

(** A quote provider that knows AAPL at 150 and MSFT at 250 and fails for
    every other symbol. *)
Definition example_quote (sym : string) (p : float) : MarketData :=
  mkMarket sym p 0 0 0 None None None None.

Definition example_yahoo : YahooFinance :=
  {| get_market_data := fun sym =>
       if String.eqb sym "AAPL" then Some (example_quote "AAPL" 150)
       else if String.eqb sym "MSFT" then Some (example_quote "MSFT" 250)
       else None |}.

Definition ledger_holding (sym : string) (qty cost : float) : PortfolioHolding :=
  mkHolding sym qty cost None None None None.

Definition snapshot_of (hs : list PortfolioHolding) : PortfolioData :=
  mkPortfolio hs (Some 0%float) (Some 0%float) (Some 0%float) (Some 0%Z).

(** Three positions, of which GOOG gets no quote. *)
Definition three_positions : PortfolioData :=
  snapshot_of [ ledger_holding "AAPL" 10 100;
                ledger_holding "GOOG" 5 50;
                ledger_holding "MSFT" 2 300 ].

Definition three_positions_enriched : PortfolioData :=
  mkPortfolio
    [ mkHolding "AAPL" 10 100 (Some 150%float) (Some 1500%float)
        (Some 500%float) (Some 50%float);
      ledger_holding "GOOG" 5 50;
      mkHolding "MSFT" 2 300 (Some 250%float) (Some 500%float)
        (Some (-100)%float) (Some (-16.666666666666664)%float) ]
    (Some 2000%float) (Some 400%float) (Some 25%float) (Some 0%Z).

(** One position bought at no cost (a grant, a spin-off), with a quote,
    and its snapshot after enrichment. *)
Definition free_position : PortfolioData :=
  snapshot_of [ ledger_holding "AAPL" 10 0 ].

Definition free_position_enriched : PortfolioData :=
  mkPortfolio
    [ mkHolding "AAPL" 10 0 (Some 150%float) (Some 1500%float)
        (Some 1500%float) (Some infinity) ]
    (Some 1500%float) (Some 1500%float) (Some 0%float) (Some 0%Z).

(** The ledger
<<
    Symbol,Quantity,Average Cost
    AAPL,10,150
    MSFT
    GOOG,5,100
>>
    as the reader yields it: the second row is shorter than the header. *)
Definition ledger_row (sym qty cost : option string) : csv_row :=
  <["Symbol" := sym]> (<["Quantity" := qty]> (<["Average Cost" := cost]> ∅)).

Definition ledger_with_short_row : ledger_file :=
  FileOpened
    [ ledger_row (Some "AAPL") (Some "10") (Some "150");
      ledger_row (Some "MSFT") None None;
      ledger_row (Some "GOOG") (Some "5") (Some "100") ]
    None.

(** A reply that wraps a record with only the [intent] field in prose,
    and a parser that decodes that record. *)
Definition dquote : string := String (ascii_of_nat 34) EmptyString.

Definition partial_record_text : string :=
  "{" +:+ dquote +:+ "intent" +:+ dquote +:+ ": "
  +:+ dquote +:+ "portfolio_query" +:+ dquote +:+ "}".

Definition partial_reply : string :=
  "Here is the classification: " +:+ partial_record_text +:+ " Done.".

Definition partial_record : json :=
  JDict [("intent", JStr "portfolio_query")].

Definition partial_reply_model : LanguageModel :=
  {| llm_ainvoke := fun _ => Ok partial_reply;
     json_loads := fun text =>
       if String.eqb text partial_record_text then Some partial_record
       else None;
     classify_prompt := fun message => "Analyze this user message: " +:+ message;
     render_context := fun _ => Ok "";
     response_prompt := fun message _ context => message +:+ context |}.

Definition first_turn : AgentState :=
  append_message new_session (mkMessage "user" "How is my portfolio doing?" 0).

(** A quote provider that fails for every symbol, and two positions of
    which one was bought at no cost. *)
Definition silent_yahoo : YahooFinance :=
  {| get_market_data := fun _ => None |}.

Definition mixed_positions : PortfolioData :=
  snapshot_of [ ledger_holding "MSFT" 2 300; ledger_holding "AAPL" 10 0 ].

(** Formats that print a placeholder; [sorted] is taken to leave the order
    of its input, which the examples do not depend on. *)
Definition example_formats : Formats :=
  {| format_money := fun _ => "?";
     format_2f := fun _ => "?";
     format_percent := fun _ => "?";
     format_len := fun _ => "?";
     sorted_order := fun _ hs => hs;
     sorted_order_permutation := fun _ hs => Permutation_refl hs |}.

(** A news gateway with no article for any symbol. *)
Definition quiet_news : News :=
  {| get_stock_news := fun _ => [] |}.

(** The ledger
<<
    Symbol,Quantity,Average Cost
    AAPL,10,100
    GOOG,5,50
>>
    and its snapshot after enrichment by [example_yahoo], which has no quote
    for GOOG. *)
Definition two_row_ledger : ledger_file :=
  FileOpened
    [ ledger_row (Some "AAPL") (Some "10") (Some "100");
      ledger_row (Some "GOOG") (Some "5") (Some "50") ]
    None.

Definition two_rows_enriched : PortfolioData :=
  mkPortfolio
    [ mkHolding "AAPL" 10 100 (Some 150%float) (Some 1500%float)
        (Some 500%float) (Some 50%float);
      ledger_holding "GOOG" 5 50 ]
    (Some 1500%float) (Some 500%float) (Some 50%float) (Some 0%Z).

(** The agent's tools over that ledger; a symbol that is not a string is
    taken to make the analyzer raise. *)
Definition refuse_other (sym : json) (holding : option PortfolioHolding)
    : result AnalysisResult :=
  Raise TypeError.

Definition example_tools : Collaborators :=
  @tools_collaborators example_builtins example_yahoo quiet_news
    two_row_ledger refuse_other.

Definition example_model : LanguageModel :=
  @with_context example_builtins example_formats partial_reply_model.

(** A session that asked for an analysis of [aapl], in lower case. *)
Definition lowercase_request : AgentState :=
  set_classification first_turn (JStr "stock_analysis")
    (JList [JStr "aapl"]) (JBool false).

(** * Properties *)

(** ** Floating-point facts

    Facts about binary64 arithmetic that the properties below rest on,
    proved from the specification of the primitive operations. *)

(** [lia] after the integer operations of the float specification are
    read as those of [Z]. *)
Ltac zmax_lia :=
  change IntDef.Z.max with Z.max in *; change IntDef.Z.min with Z.min in *;
  change IntDef.Z.sub with Z.sub in *; change IntDef.Z.add with Z.add in *;
  change IntDef.Z.opp with Z.opp in *; lia.

Lemma iter_pos_nat {A} (f : A → A) (p : positive) (x : A) :
  iter_pos f p x = Nat.iter (Pos.to_nat p) f x.
Proof.
  revert x. induction p as [p IH|p IH|]; intros x; cbn [iter_pos].
  - rewrite !IH, Pos2Nat.inj_xI.
    replace (S (2 * Pos.to_nat p)) with (Pos.to_nat p + (Pos.to_nat p + 1))%nat by lia.
    rewrite !Nat.iter_add. reflexivity.
  - rewrite !IH, Pos2Nat.inj_xO.
    replace (2 * Pos.to_nat p)%nat with (Pos.to_nat p + Pos.to_nat p)%nat by lia.
    now rewrite Nat.iter_add.
  - reflexivity.
Qed.

(** Shifting a mantissa right by fewer bits than it has leaves a positive
    mantissa. *)
Lemma iter_shr_1_positive (n : nat) (q : positive) (r s : bool) :
  (n < Pos.to_nat (digits2_pos q))%nat →
  ∃ q' r' s',
    Nat.iter n shr_1 (Build_shr_record (Zpos q) r s) = Build_shr_record (Zpos q') r' s'.
Proof.
  revert q r s. induction n as [|n IH]; intros q r s Hn.
  - simpl. eauto.
  - rewrite Nat.iter_succ_r.
    destruct q as [p|p|]; simpl in Hn |- *.
    + apply IH. lia.
    + apply IH. lia.
    + lia.
Qed.

(** At an exponent not below [emin], the shift to the canonical exponent
    leaves a positive mantissa. *)
Lemma shr_fexp_positive (q : positive) (e : Z) (l : location) :
  (emin prec emax <= e)%Z →
  ∃ q' r' s' e',
    shr_fexp prec emax (Zpos q) e l = (Build_shr_record (Zpos q') r' s', e')
    ∧ (emin prec emax <= e')%Z.
Proof.
  intros He. unfold shr_fexp, shr.
  assert (∃ r s, shr_record_of_loc (Zpos q) l = Build_shr_record (Zpos q) r s)
    as (r & s & ->) by (destruct l as [|[]]; simpl; eauto).
  destruct (fexp prec emax (Zdigits2 (Zpos q) + e) - e)%Z as [|p|p] eqn:Hshift; eauto 6.
  rewrite iter_pos_nat.
  destruct (iter_shr_1_positive (Pos.to_nat p) q r s) as (q' & r' & s' & ->).
  - unfold fexp, emin, prec, emax in *. cbn [Zdigits2] in Hshift. zmax_lia.
  - exists q', r', s'. eexists. split; [reflexivity|]. lia.
Qed.

(** Rounding a positive mantissa at an exponent not below [emin] never
    gives zero: there is no underflow to zero above the smallest subnormal. *)
Lemma binary_round_aux_nonzero (sx : bool) (q : positive) (e : Z) (l : location) :
  (emin prec emax <= e)%Z →
  is_zero (binary_round_aux prec emax sx (Zpos q) e l) = false.
Proof.
  intros He. unfold binary_round_aux.
  destruct (shr_fexp_positive q e l He) as (q1 & r1 & s1 & e1 & -> & He1).
  assert (∃ q2, round_nearest_even (shr_m (Build_shr_record (Zpos q1) r1 s1))
                       (loc_of_shr_record (Build_shr_record (Zpos q1) r1 s1)) = Zpos q2)
    as (q2 & ->).
  { simpl. destruct r1, s1; simpl; eauto. destruct q1; simpl; eauto. }
  destruct (shr_fexp_positive q2 e1 loc_Exact He1) as (q3 & r3 & s3 & e3 & -> & _).
  cbn [shr_m].
  match goal with |- context [if ?b then _ else _] => destruct b end; reflexivity.
Qed.

Lemma binary_normalize_nonzero (m e : Z) (szero : bool) :
  (emin prec emax <= e)%Z → m ≠ 0%Z →
  is_zero (binary_normalize prec emax m e szero) = false.
Proof.
  intros He Hm.
  assert (∀ sx p, is_zero (binary_round prec emax sx p e) = false) as Hround.
  { intros sx p. unfold binary_round, shl_align.
    destruct (fexp prec emax (Z.pos (digits2_pos p) + e) - e)%Z eqn:Hd;
      apply binary_round_aux_nonzero; try assumption.
    unfold fexp. zmax_lia. }
  destruct m; [congruence| |]; apply Hround.
Qed.

Lemma digits2_pos_shift (m d : positive) :
  digits2_pos (Pos.iter xO m d) = (digits2_pos m + d)%positive.
Proof.
  induction d as [|d IH] using Pos.peano_ind.
  - simpl. lia.
  - rewrite Pos.iter_succ. simpl. rewrite IH. lia.
Qed.

Lemma canonical_emin (m : positive) (e : Z) :
  canonical_mantissa prec emax m e = true → (emin prec emax <= e)%Z.
Proof.
  unfold canonical_mantissa, fexp. intros H%Z.eqb_eq. zmax_lia.
Qed.

(** The difference of two floats that do not compare equal is not zero. *)
Lemma SFsub_nonzero (x y : spec_float) :
  valid_binary prec emax x = true → valid_binary prec emax y = true →
  SFeqb x y = false → is_zero (SFsub prec emax x y) = false.
Proof.
  destruct x as [[]|[]| |sx mx ex], y as [[]|[]| |sy my ey];
    try (simpl; intros _ _ Hne; first [reflexivity | discriminate]).
  unfold valid_binary, bounded. intros [Hx _]%andb_prop [Hy _]%andb_prop Hne.
  cbn [SFsub].
  pose proof (canonical_emin _ _ Hx) as Hex. pose proof (canonical_emin _ _ Hy) as Hey.
  apply binary_normalize_nonzero; [zmax_lia|].
  intros Hdiff. revert Hne.
  unfold canonical_mantissa, fexp in Hx, Hy. apply Z.eqb_eq in Hx, Hy.
  unfold shl_align in Hdiff.
  change IntDef.Z.min with Z.min in *.
  assert (sx = sy ∧ ex = ey ∧ mx = my) as (-> & -> & ->).
  { destruct (Z.compare_spec ex ey) as [Heq|Hlt|Hgt].
    - subst ey. rewrite Z.min_id, Z.sub_diag in Hdiff. cbn [fst] in Hdiff.
      destruct sx, sy; cbn [cond_Zopp] in Hdiff; repeat split;
        first [reflexivity | zmax_lia].
    - rewrite Z.min_l, Z.sub_diag in Hdiff by lia. cbn [fst] in Hdiff.
      destruct (ex - ey)%Z as [|d|d] eqn:Hd; try lia. cbn [fst] in Hdiff.
      assert (mx = Pos.iter xO my d) as ->
        by (destruct sx, sy; cbn [cond_Zopp] in Hdiff; zmax_lia).
      rewrite digits2_pos_shift in Hx. zmax_lia.
    - rewrite Z.min_r, Z.sub_diag in Hdiff by lia. cbn [fst] in Hdiff.
      destruct (ey - ex)%Z as [|d|d] eqn:Hd; try lia. cbn [fst] in Hdiff.
      assert (my = Pos.iter xO mx d) as ->
        by (destruct sx, sy; cbn [cond_Zopp] in Hdiff; zmax_lia).
      rewrite digits2_pos_shift in Hy. zmax_lia. }
  unfold SFeqb, SFcompare. rewrite Z.compare_refl, Pos.compare_cont_refl.
  destruct sy; discriminate.
Qed.

Lemma float_sub_nonzero (x y : float) :
  PrimFloat.eqb x y = false → PrimFloat.eqb (x - y) 0 = false.
Proof.
  rewrite !FloatAxioms.eqb_spec, sub_spec. intros Hne.
  pose proof (SFsub_nonzero _ _ (Prim2SF_valid x) (Prim2SF_valid y) Hne) as Hz.
  unfold SF64sub. change (Prim2SF 0) with (S754_zero false).
  destruct (SFsub prec emax (Prim2SF x) (Prim2SF y)) as [[]|[]| |[] m e];
    first [discriminate | reflexivity].
Qed.

(** ** Recommendation engine *)

Section Recommendation.
Context `{!Builtins}.

(** Case analysis on every test the cascade makes. *)
Ltac cascade_cases md s h :=
  destruct (PrimFloat.ltb 5 (change_percent md));
  [ | destruct (PrimFloat.ltb (change_percent md) (-5)) ];
  destruct s;
  (destruct h as [[? ? ? ? ? ? [glp|]]|];
   [ cbn [gain_loss_percent mbind option_bind];
     destruct (PrimFloat.ltb 20 glp);
     [ | destruct (PrimFloat.ltb glp (-20)) ] | | ]).

(** C1. The engine is the three rules of the specification applied in
    order (base action from the percent change, sentiment adjustment,
    holding-aware dampening), and its reasoning is the fragments joined by
    ". " with a trailing period. *)
Theorem generate_recommendation_is_rule_cascade
    (market_data : MarketData) (s : SentimentIndicator)
    (news : list NewsItem) (holding : option PortfolioHolding) :
  _generate_recommendation market_data s news holding
  = Spec.recommend market_data s news holding.
Proof.
  unfold _generate_recommendation, Spec.recommend, Spec.holding_rule,
    Spec.sentiment_rule, Spec.sentiment_adjust, Spec.base_rule,
    Spec.capped, Spec.floored, Py.min, Py.max, Py.gt, Py.lt, Py.join.
  cascade_cases market_data s holding; reflexivity.
Qed.

(** The confidence and the action of every run of the cascade. *)
Lemma generate_recommendation_range
    (market_data : MarketData) (s : SentimentIndicator)
    (news : list NewsItem) (holding : option PortfolioHolding) :
  let '(a, c, _) := _generate_recommendation market_data s news holding in
  a ≠ WATCH ∧ PrimFloat.leb 0.1 c = true ∧ PrimFloat.leb c 1.0 = true
  ∧ PrimFloat.ltb c 0.1 = false.
Proof.
  unfold _generate_recommendation, Py.min, Py.max, Py.gt, Py.lt.
  cascade_cases market_data s holding;
    (split; [ discriminate | repeat split; vm_compute; reflexivity ]).
Qed.

(** C4. Whatever the quote, the sentiment, the news and the holding, and
    whichever adjustments the cascade applies, the confidence it returns
    lies in [0.1, 1.0]. *)
Theorem generate_recommendation_confidence_bounds
    (market_data : MarketData) (s : SentimentIndicator)
    (news : list NewsItem) (holding : option PortfolioHolding) :
  let c := snd (fst (_generate_recommendation market_data s news holding)) in
  PrimFloat.leb 0.1 c = true ∧ PrimFloat.leb c 1.0 = true.
Proof.
  pose proof (generate_recommendation_range market_data s news holding) as R.
  destruct (_generate_recommendation market_data s news holding) as [[a c] r].
  simpl. tauto.
Qed.

End Recommendation.

(** ** Aggregate sentiment *)

(** [sum(1 for x in xs if p x)] counts the items that pass the test. *)
Lemma sum_ones_from {A} (p : A → bool) (xs : list A) (acc : nat) :
  fold_left (fun acc x => if p x then acc + 1 else acc)%nat xs acc
  = (acc + length (List.filter p xs))%nat.
Proof.
  revert acc. induction xs as [|x xs IH]; intros acc; simpl.
  - lia.
  - rewrite IH. destruct (p x); simpl; lia.
Qed.

Lemma sum_ones_length {A} (p : A → bool) (xs : list A) :
  sum_ones p xs = length (List.filter p xs).
Proof. unfold sum_ones. now rewrite sum_ones_from. Qed.

Lemma sum_ones_votes (label : SentimentIndicator) (items : list NewsItem) :
  sum_ones (fun item => bool_decide (sentiment item = label)) items
  = Spec.votes label (sentiment <$> items).
Proof.
  rewrite sum_ones_length. unfold Spec.votes.
  induction items as [|item items IH]; [reflexivity|].
  cbn [List.filter fmap list_fmap]. rewrite filter_cons.
  destruct (decide (sentiment item = label)) as [Heq|Hne].
  - rewrite bool_decide_eq_true_2 by exact Heq. simpl. now rewrite IH.
  - rewrite bool_decide_eq_false_2 by exact Hne. exact IH.
Qed.

(** C5, as stated, fails: of three articles labelled NEUTRAL, NEUTRAL and
    POSITIVE the majority label is NEUTRAL (two votes of three), and the
    code answers POSITIVE. *)
Lemma overall_sentiment_not_majority :
  overall_sentiment_of three_articles = POSITIVE
  ∧ Spec.majority_vote (sentiment <$> three_articles) = NEUTRAL
  ∧ Spec.absolute_majority (sentiment <$> three_articles) = NEUTRAL.
Proof. repeat split; reflexivity. Qed.

(** C5, amended. The aggregate sentiment is POSITIVE when the articles
    labelled POSITIVE outnumber those labelled NEGATIVE, NEGATIVE when the
    NEGATIVE ones outnumber the POSITIVE ones, and NEUTRAL when the two
    counts are equal; articles labelled NEUTRAL do not vote. An empty news
    list yields NEUTRAL. *)
Theorem overall_sentiment_is_polarity_vote (news_items : list NewsItem) :
  overall_sentiment_of news_items = Spec.polarity_vote (sentiment <$> news_items)
  ∧ overall_sentiment_of [] = NEUTRAL.
Proof.
  split; [|reflexivity].
  destruct news_items as [|item items]; [reflexivity|].
  unfold overall_sentiment_of, Spec.polarity_vote.
  now rewrite !sum_ones_votes.
Qed.

(** ** analyze_symbol *)

Section Analysis.
Context `{!Builtins, !YahooFinance, !News}.

(** C10. When the market-data fetch returns nothing, [analyze_symbol]
    answers WATCH with confidence 0.0, NEUTRAL sentiment, price 0.0, no
    news, no indicators and the reasoning "Unable to fetch market data";
    when the fetch returns a quote, the action is not WATCH and the
    confidence is not below 0.1. *)
Theorem analyze_symbol_watch_only_without_quote
    (sym : string) (holding : option PortfolioHolding) :
  match get_market_data sym with
  | None =>
      analyze_symbol sym holding
      = mkAnalysis sym 0.0 NEUTRAL [] ∅ WATCH 0.0 "Unable to fetch market data"
  | Some _ =>
      recommendation (analyze_symbol sym holding) ≠ WATCH
      ∧ PrimFloat.ltb (confidence (analyze_symbol sym holding)) 0.1 = false
  end.
Proof.
  unfold analyze_symbol.
  destruct (get_market_data sym) as [market_data|]; [|reflexivity].
  pose proof (generate_recommendation_range market_data
                (overall_sentiment_of (get_stock_news sym))
                (get_stock_news sym) holding) as R.
  destruct (_generate_recommendation _ _ _ _) as [[a c] r]. simpl.
  destruct R as (Ha & _ & _ & Hc). auto.
Qed.

End Analysis.

(** ** Relevance score *)

Lemma float_mul_comm (x y : float) : (x * y = y * x)%float.
Proof.
  apply Prim2SF_inj. rewrite !mul_spec.
  unfold SF64mul, SpecFloat.SFmul.
  destruct (Prim2SF x) as [sx|sx| |sx mx ex], (Prim2SF y) as [sy|sy| |sy my ey];
    try reflexivity; rewrite ?(xorb_comm sx sy); try reflexivity.
  now rewrite (Pos.mul_comm mx my), (Z.add_comm ex ey).
Qed.

(** Over a list without repeats, counting the items that pass a test and
    measuring the set of those that pass give the same number. *)
Lemma size_filter_list_to_set (p : string → bool) (l : list string) :
  NoDup l →
  size (filter (fun k => p k = true) (list_to_set l : gset string))
  = length (List.filter p l).
Proof.
  induction 1 as [|k l Hk Hl IH]; simpl.
  - rewrite filter_empty_L by apply _. now rewrite size_empty.
  - rewrite filter_union_L by apply _. rewrite size_union.
    + rewrite IH, filter_singleton_L by apply _.
      destruct (decide (p k = true)) as [Hp|Hp].
      * now rewrite Hp, size_singleton.
      * apply not_true_is_false in Hp. now rewrite Hp, size_empty.
    + intros x Hx1 Hx2.
      apply elem_of_filter in Hx1 as [_ Hx1]. apply elem_of_filter in Hx2 as [_ Hx2].
      apply elem_of_singleton in Hx1 as ->. apply elem_of_list_to_set in Hx2.
      contradiction.
Qed.

Lemma keyword_set_of_list :
  Spec.keyword_set = list_to_set financial_keywords.
Proof. unfold Spec.keyword_set, financial_keywords. set_solver. Qed.

Lemma financial_keywords_distinct : NoDup financial_keywords.
Proof. apply (bool_decide_unpack (NoDup financial_keywords)). vm_compute. exact I. Qed.

Lemma keyword_count_is_set_size (text : string) :
  sum_ones (fun keyword => contains keyword (lower text)) financial_keywords
  = Spec.keywords_present text.
Proof.
  unfold Spec.keywords_present.
  rewrite keyword_set_of_list, sum_ones_length.
  symmetry. apply (size_filter_list_to_set (fun k => contains k (lower text))).
  exact financial_keywords_distinct.
Qed.

(** C6. The relevance score is min(1.0, 0.6 x mentions + 0.4 x keywords),
    where [mentions] counts the occurrences of the symbol in the text
    without regard to case and [keywords] is the number of distinct
    keywords of the fixed set that occur in it; "AAPL AAPL stock price"
    scores exactly 1.0 for "AAPL". *)
Theorem calculate_relevance_formula (text sym : string) :
  _calculate_relevance text sym = Spec.relevance text sym
  ∧ _calculate_relevance "AAPL AAPL stock price" "AAPL" = 1.0%float.
Proof.
  split; [|vm_compute; reflexivity].
  unfold _calculate_relevance, Spec.relevance, Spec.symbol_mentions.
  rewrite keyword_count_is_set_size.
  rewrite (float_mul_comm _ 0.6), (float_mul_comm _ 0.4).
  reflexivity.
Qed.

(** ** Portfolio enricher *)

(** The figures of a quoted holding, whatever its average cost. *)
Lemma enrich_holding_formulas (market_data : MarketData) (h : PortfolioHolding) :
  enrich_holding market_data h
  = mkHolding (symbol h) (quantity h) (avg_cost h)
      (Some (price market_data))
      (Some (quantity h * price market_data)%float)
      (Some ((price market_data - avg_cost h) * quantity h)%float)
      (Some ((price market_data - avg_cost h) / avg_cost h * 100)%float).
Proof. reflexivity. Qed.

(** A quotient by zero, times 100, is an infinity or NaN. *)
Lemma zero_divisor_not_finite (x c : float) :
  PrimFloat.eqb c 0 = true → finite (np_truediv x c * 100) = false.
Proof.
  intros Hz. unfold finite, np_truediv.
  rewrite FloatAxioms.mul_spec, FloatAxioms.div_spec.
  rewrite FloatAxioms.eqb_spec in Hz.
  change (Prim2SF 0) with (S754_zero false) in Hz.
  change (Prim2SF 100) with (S754_finite false 7036874417766400 (-46)).
  destruct (Prim2SF c) as [sc|sc| |sc mc ec]; cbv in Hz; try discriminate;
    try (destruct sc; discriminate).
  destruct (Prim2SF x) as [sx|sx| |sx mx ex]; reflexivity.
Qed.

Lemma fold_add_quoted_cons_in (quotes : gmap string MarketData)
    (field : PortfolioHolding → option float) (h : PortfolioHolding)
    (hs : list PortfolioHolding) (v acc : float) :
  is_Some (quotes !! symbol h) → field h = Some v →
  fold_left PrimFloat.add
    (omap field (filter (Spec.received_quote quotes) (h :: hs))) acc
  = fold_left PrimFloat.add
      (omap field (filter (Spec.received_quote quotes) hs)) (acc + v)%float.
Proof.
  intros Hq Hv. rewrite filter_cons_True by exact Hq.
  simpl. now rewrite Hv.
Qed.

Lemma fold_add_quoted_cons_out (quotes : gmap string MarketData)
    (field : PortfolioHolding → option float) (h : PortfolioHolding)
    (hs : list PortfolioHolding) (acc : float) :
  quotes !! symbol h = None →
  fold_left PrimFloat.add
    (omap field (filter (Spec.received_quote quotes) (h :: hs))) acc
  = fold_left PrimFloat.add
      (omap field (filter (Spec.received_quote quotes) hs)) acc.
Proof.
  intros Hq. rewrite filter_cons_False; [reflexivity|].
  unfold Spec.received_quote. rewrite Hq. now intros [? ?].
Qed.

(** The loop: positions are kept, a holding with a quote is replaced by its
    enriched copy, a holding without one is returned as it was, and the two
    running totals are the sums over the holdings that received a quote. *)
Lemma enrich_holdings_post (quotes : gmap string MarketData)
    (hs hs' : list PortfolioHolding) (tv tgl tv' tgl' : float) :
  enrich_holdings quotes hs tv tgl = (hs', tv', tgl') →
  Forall2 (fun h h' => symbol h' = symbol h
                       ∧ match quotes !! symbol h with
                         | Some md => h' = enrich_holding md h
                         | None => h' = h
                         end) hs hs'
  ∧ tv' = fold_left PrimFloat.add
            (omap value (filter (Spec.received_quote quotes) hs')) tv
  ∧ tgl' = fold_left PrimFloat.add
             (omap gain_loss (filter (Spec.received_quote quotes) hs')) tgl.
Proof.
  revert hs' tv tgl tv' tgl'.
  induction hs as [|h hs IH]; intros hs' tv tgl tv' tgl'; simpl.
  - intros [= <- <- <-]. repeat split. constructor.
  - destruct (quotes !! symbol h) as [md|] eqn:Hq.
    + destruct (enrich_holdings quotes hs _ _) as [[rest tv1] tgl1] eqn:Hr.
      intros [= <- <- <-].
      destruct (IH _ _ _ _ _ Hr) as (HF & Htv & Htgl).
      assert (is_Some (quotes !! symbol (enrich_holding md h))) as Hq1
        by (cbn [enrich_holding symbol]; rewrite Hq; eauto).
      split; [|split].
      * constructor; [|exact HF]. rewrite Hq. now split.
      * now rewrite (fold_add_quoted_cons_in _ _ _ _ _ _ Hq1 eq_refl).
      * now rewrite (fold_add_quoted_cons_in _ _ _ _ _ _ Hq1 eq_refl).
    + destruct (enrich_holdings quotes hs _ _) as [[rest tv1] tgl1] eqn:Hr.
      intros [= <- <- <-].
      destruct (IH _ _ _ _ _ Hr) as (HF & Htv & Htgl).
      split; [|split].
      * constructor; [|exact HF]. rewrite Hq. now split.
      * now rewrite (fold_add_quoted_cons_out _ _ _ _ _ Hq).
      * now rewrite (fold_add_quoted_cons_out _ _ _ _ _ Hq).
Qed.

Lemma enrich_holdings_symbols (quotes : gmap string MarketData)
    (hs hs' : list PortfolioHolding) (tv tgl tv' tgl' : float) :
  enrich_holdings quotes hs tv tgl = (hs', tv', tgl') →
  map symbol hs' = map symbol hs.
Proof.
  intros Hloop.
  destruct (enrich_holdings_post _ _ _ _ _ _ _ Hloop) as (HF & _ & _).
  clear Hloop. induction HF as [|h h' hs hs' [Hs _] _ IH]; [reflexivity|].
  simpl. f_equal; [exact Hs|exact IH].
Qed.

Section Enrichment.
Context `{!Builtins, !YahooFinance}.

(** The snapshot that enrichment returns, in terms of its loop. *)
Lemma update_portfolio_unfold (portfolio : PortfolioData) :
  ∃ (hs' : list PortfolioHolding) (tv tgl : float),
    enrich_holdings (get_multiple_market_data (symbol <$> holdings portfolio))
      (holdings portfolio) 0 0 = (hs', tv, tgl)
    ∧ update_portfolio_with_market_data portfolio
      = mkPortfolio hs' (Some tv) (Some tgl)
          (Some (if ne tv tgl then (tgl / (tv - tgl) * 100)%float
                 else 0%float))
          (Some datetime_now).
Proof.
  unfold update_portfolio_with_market_data, np_truediv.
  change (map symbol (holdings portfolio))
    with (symbol <$> holdings portfolio).
  destruct (enrich_holdings _ (holdings portfolio) 0 0)
    as [[hs' tv] tgl] eqn:Hloop.
  now exists hs', tv, tgl.
Qed.

(** C3. After enrichment of any snapshot, [total_value] is the sum of
    [value] over the holdings that received a quote and [total_gain_loss]
    the sum of their [gain_loss]; a holding whose symbol has no quote is
    left as it was, so its derived fields stay absent and it adds nothing to
    the sums; and [total_gain_loss_percent] is total_gain_loss /
    (total_value - total_gain_loss) x 100, or 0 when the two totals are
    equal. *)
Theorem update_portfolio_aggregates (portfolio : PortfolioData) :
  Spec.enriched_with
    (get_multiple_market_data (symbol <$> holdings portfolio))
    portfolio (update_portfolio_with_market_data portfolio).
Proof.
  destruct (update_portfolio_unfold portfolio)
    as (hs' & tv & tgl & Hloop & ->).
  set (quotes := get_multiple_market_data _) in *.
  destruct (enrich_holdings_post _ _ _ _ _ _ _ Hloop) as (HF & Htv & Htgl).
  fold (Spec.fsum (omap value (filter (Spec.received_quote quotes) hs'))) in Htv.
  fold (Spec.fsum (omap gain_loss (filter (Spec.received_quote quotes) hs'))) in Htgl.
  fold (Spec.sum_over_quoted quotes value hs') in Htv.
  fold (Spec.sum_over_quoted quotes gain_loss hs') in Htgl.
  assert (∀ i h, holdings portfolio !! i = Some h →
                 quotes !! symbol h = None → hs' !! i = Some h) as Hkeep.
  { intros i h Hi Hq.
    destruct (Forall2_lookup_l _ _ _ _ _ HF Hi) as (h' & Hi' & _ & Hsame).
    rewrite Hq in Hsame. now rewrite Hi', Hsame. }
  subst tv tgl.
  constructor; cbn [holdings total_value total_gain_loss
                    total_gain_loss_percent]; try reflexivity.
  - symmetry. exact (Forall2_length _ _ _ HF).
  - exact Hkeep.
  - intros i h h' Hi Hi' Hq Hu. rewrite (Hkeep _ _ Hi Hq) in Hi'.
    now injection Hi' as <-.
  - unfold Spec.aggregate_percent, ne.
    now destruct (PrimFloat.eqb _ _).
Qed.

End Enrichment.

(** C3, on the three positions: AAPL and MSFT are enriched, GOOG is left
    alone, and the totals are 2000 and 400 with 25 percent. *)
Lemma update_portfolio_aggregates_example :
  @update_portfolio_with_market_data example_builtins example_yahoo
    three_positions = three_positions_enriched
  ∧ Spec.enriched_with
      (@get_multiple_market_data example_yahoo
         (symbol <$> holdings three_positions))
      three_positions three_positions_enriched.
Proof.
  assert (@update_portfolio_with_market_data example_builtins example_yahoo
            three_positions = three_positions_enriched) as Hrun
    by (vm_compute; reflexivity).
  split; [exact Hrun|]. rewrite <- Hrun.
  exact (@update_portfolio_aggregates example_builtins example_yahoo
           three_positions).
Defined.

(** ** Ledger reader *)

Section Ledger.
Context `{!Builtins}.

(** A missing file is an empty snapshot with all aggregates 0. *)
Lemma get_portfolio_data_missing :
  get_portfolio_data FileMissing
  = mkPortfolio [] (Some 0%float) (Some 0%float) (Some 0%float)
      (Some datetime_now).
Proof. reflexivity. Qed.

(** On a row with a cell in each column it reads, the loop body skips or
    appends as the specification says, and does not raise. *)
Lemma read_row_complete (row : csv_row) :
  Spec.complete_row row → read_row row = Ok (Spec.row_holding row).
Proof.
  intros (Hs & Hq & Hc).
  unfold read_row, Spec.row_holding, Spec.cell_text, row_symbol_stripped,
    row_symbol_upper, row_float.
  destruct (row !! "Symbol") as [[sym|]|]; [|congruence|reflexivity].
  simpl. destruct (String.eqb (strip sym) ""); [reflexivity|].
  destruct (row !! "Quantity") as [[q|]|]; [|congruence|reflexivity].
  simpl. destruct (float_of_str q) as [qty|]; [|reflexivity].
  destruct (row !! "Average Cost") as [[c|]|]; [|congruence|reflexivity].
  simpl. destruct (float_of_str c) as [cost|]; reflexivity.
Qed.

Lemma read_rows_complete (rows : list csv_row) (acc : list PortfolioHolding) :
  Forall Spec.complete_row rows →
  read_rows rows acc = Ok (acc ++ omap Spec.row_holding rows).
Proof.
  intros Hrows. revert acc.
  induction Hrows as [|row rows Hrow _ IH]; intros acc; simpl.
  - now rewrite app_nil_r.
  - rewrite (read_row_complete _ Hrow). simpl.
    destruct (Spec.row_holding row) as [h|]; rewrite IH; [|reflexivity].
    now rewrite <- app_assoc.
Qed.

(** X1. A file read to its end whose rows are complete: one holding per row
    that has a symbol and two numbers, in file order, derived fields absent. *)
Lemma get_portfolio_data_complete_rows (rows : list csv_row) :
  Forall Spec.complete_row rows →
  get_portfolio_data (FileOpened rows None)
  = mkPortfolio (omap Spec.row_holding rows) (Some 0%float) (Some 0%float)
      (Some 0%float) (Some datetime_now).
Proof.
  intros Hrows. unfold get_portfolio_data.
  now rewrite (read_rows_complete _ _ Hrows).
Qed.

Lemma row_holding_unenriched (row : csv_row) (h : PortfolioHolding) :
  Spec.row_holding row = Some h → Spec.unenriched h.
Proof.
  unfold Spec.row_holding.
  destruct (Spec.cell_text row "Symbol") as [sym|]; simpl; [|discriminate].
  destruct (String.eqb (strip sym) ""); [discriminate|].
  destruct (Spec.cell_text row "Quantity" ≫= float_of_str); simpl; [|discriminate].
  destruct (Spec.cell_text row "Average Cost" ≫= float_of_str); simpl; [|discriminate].
  intros [= <-]. repeat split.
Qed.

End Ledger.

(** C8, the row that is not skipped. A row with a symbol and no quantity
    makes [float] raise [TypeError], which the handler of the row does
    not catch: the whole read is abandoned and the snapshot is empty, although
    the rows before and after it are well formed. *)
Theorem get_portfolio_data_short_row_aborts :
  holdings (@get_portfolio_data example_builtins ledger_with_short_row) = []
  ∧ @read_row example_builtins (ledger_row (Some "MSFT") None None)
    = Raise TypeError
  ∧ @read_row example_builtins (ledger_row (Some "AAPL") (Some "10") (Some "150"))
    = Ok (Some (ledger_holding "AAPL" 10 150))
  ∧ @read_row example_builtins (ledger_row (Some "GOOG") (Some "5") (Some "100"))
    = Ok (Some (ledger_holding "GOOG" 5 100)).
Proof. repeat split; vm_compute; reflexivity. Qed.

(** ** Intent classifier and routing *)

Section Classifier.
Context `{!LanguageModel}.

Lemma should_fetch_portfolio_classified (state : AgentState)
    (c : Spec.classification) :
  Spec.classified state = Some c →
  _should_fetch_portfolio state
  = if Spec.wants_portfolio c then fetch_portfolio else generate_response.
Proof.
  unfold Spec.classified, _should_fetch_portfolio, Spec.wants_portfolio.
  destruct (intent (user_context state)) as [i|]; simpl; [|discriminate].
  destruct (symbols (user_context state)) as [s|]; simpl; [|discriminate].
  destruct (requires_portfolio (user_context state)) as [r|]; simpl;
    [|discriminate].
  intros [= <-]. simpl.
  destruct (truthy r); simpl; [reflexivity|].
  destruct (eq_str i "portfolio_query" || eq_str i "stock_analysis");
    reflexivity.
Qed.

(** C7, amended. When the oracle call fails, or no record can be parsed
    from the reply, the classifier yields exactly the fallback
    {general_question, [], false}; when a record is parsed, each of the
    three fields that is absent takes its own default and the fields that
    are present keep their values. The orchestrator goes to FetchPortfolio
    when requires_portfolio is true or intent is portfolio_query or
    stock_analysis and to Respond otherwise, so the fallback goes to
    Respond. *)
Theorem classifier_defaults_and_routing (st : AgentState) (m : Message) :
  let state := append_message st m in
  let c :=
    match llm_ainvoke (classify_prompt (msg_content m)) with
    | Raise _ => Spec.fallback
    | Ok response =>
        match json_loads (Spec.record_text (strip response)) with
        | Some (JDict members) => Spec.field_defaults members
        | _ => Spec.fallback
        end
    end in
  ∃ state' : AgentState,
    _process_message state = Ok state'
    ∧ Spec.classified state' = Some c
    ∧ _should_fetch_portfolio state'
      = (if Spec.wants_portfolio c then fetch_portfolio else generate_response)
    ∧ Spec.wants_portfolio Spec.fallback = false.
Proof.
  intros state c.
  assert (∃ state', _process_message state = Ok state'
                    ∧ Spec.classified state' = Some c) as (state' & Hrun & Hc).
  { unfold _process_message, latest_content, state, append_message.
    cbn [messages]. rewrite last_snoc. cbn [mbind result_bind].
    eexists. split; [reflexivity|].
    subst c. unfold Spec.record_text.
    destruct (llm_ainvoke _) as [response|e]; [|reflexivity].
    cbn [mbind result_bind].
    destruct (json_loads _) as [[| | | | | |members]|]; reflexivity. }
  exists state'. repeat split; try assumption.
  exact (should_fetch_portfolio_classified _ _ Hc).
Qed.

End Classifier.

(** C7, as stated, fails: a reply whose record has [intent] and lacks
    [symbols] and [requires_portfolio] does not yield the fallback. The
    intent is kept, only the two absent fields are defaulted, and the turn
    goes to FetchPortfolio. *)
Lemma partial_record_keeps_intent :
  Spec.record_text (strip partial_reply) = partial_record_text
  ∧ members_get [("intent", JStr "portfolio_query")] "symbols" = None
  ∧ @_process_message partial_reply_model first_turn
    = Ok (set_classification first_turn
            (JStr "portfolio_query") (JList []) (JBool false))
  ∧ Spec.classified
      (set_classification first_turn
         (JStr "portfolio_query") (JList []) (JBool false))
    ≠ Some Spec.fallback
  ∧ _should_fetch_portfolio
      (set_classification first_turn
         (JStr "portfolio_query") (JList []) (JBool false))
    = fetch_portfolio.
Proof.
  split; [vm_compute; reflexivity|].
  split; [reflexivity|].
  split; [vm_compute; reflexivity|].
  split; [|vm_compute; reflexivity].
  vm_compute. discriminate.
Qed.

(** ** Conversation orchestrator *)

Section Orchestrator.
Context `{!Builtins, !LanguageModel, !Collaborators}.

Lemma generate_response_appends (state : AgentState) :
  _generate_response state
  = append_message state (assistant_message (reply_text state)).
Proof.
  unfold _generate_response, reply_text.
  now destruct (synthesize state).
Qed.

Lemma fetch_portfolio_messages (state : AgentState) :
  messages (_fetch_portfolio state) = messages state.
Proof.
  unfold _fetch_portfolio.
  destruct csv_get_portfolio_data as [p|]; simpl; [|reflexivity].
  now destruct (pa_update_portfolio_with_market_data p).
Qed.

Lemma analyze_portfolio_messages (state : AgentState) :
  messages (_analyze_portfolio state) = messages state.
Proof.
  unfold _analyze_portfolio.
  destruct (portfolio_data state) as [p|]; [|reflexivity].
  destruct (analyses_for state p) as [[|a l]|]; reflexivity.
Qed.

Lemma process_message_messages (state state' : AgentState) :
  _process_message state = Ok state' → messages state' = messages state.
Proof.
  unfold _process_message.
  destruct (latest_content state) as [latest|]; simpl; [|discriminate].
  intros [= <-].
  destruct (llm_ainvoke _) as [response|]; simpl; [|reflexivity].
  destruct (json_loads _) as [[| | | | | |members]|]; reflexivity.
Qed.

Lemma process_message_total (st : AgentState) (m : Message) :
  ∃ state', _process_message (append_message st m) = Ok state'.
Proof.
  unfold _process_message, latest_content, append_message.
  cbn [messages]. rewrite last_snoc. simpl. eauto.
Qed.

(** The steps between Classify and Respond catch what their collaborators
    raise. *)
Lemma fetch_portfolio_boundary (state : AgentState) :
  portfolio_data (_fetch_portfolio state)
  = match csv_get_portfolio_data ≫= pa_update_portfolio_with_market_data with
    | Ok portfolio => Some portfolio
    | Raise _ => None
    end.
Proof.
  unfold _fetch_portfolio.
  destruct csv_get_portfolio_data as [p|]; simpl; [|reflexivity].
  now destruct (pa_update_portfolio_with_market_data p).
Qed.

Lemma analyze_portfolio_boundary (state : AgentState) (p : PortfolioData) :
  portfolio_data state = Some p →
  current_analysis (_analyze_portfolio state)
  = match analyses_for state p with
    | Ok (primary :: _) => Some primary
    | Ok [] => current_analysis state
    | Raise _ => None
    end.
Proof.
  intros Hp. unfold _analyze_portfolio. rewrite Hp.
  destruct (analyses_for state p) as [[|a l]|]; reflexivity.
Qed.

(** One step of the graph runtime, and its end. *)
Lemma run_from_step (fuel : nat) (n : node) (state : AgentState)
    (visited : list node) :
  n ≠ END →
  run_from (S fuel) n state visited
  = run_node n state
      ≫= fun state' =>
            run_from fuel (next_node n state') state' (visited ++ [n]).
Proof. destruct n; intros Hn; (reflexivity || contradiction). Qed.

Lemma run_from_end (fuel : nat) (state : AgentState) (visited : list node) :
  run_from fuel END state visited = Ok (state, visited).
Proof. destruct fuel; reflexivity. Qed.

Lemma should_fetch_portfolio_cases (state : AgentState) :
  _should_fetch_portfolio state = fetch_portfolio
  ∨ _should_fetch_portfolio state = generate_response.
Proof.
  unfold _should_fetch_portfolio.
  destruct (truthy _); [now left|].
  destruct (_ || _); [now left|now right].
Qed.

(** Every run of the graph from a session whose last message is the
    user's ends with the Respond step. *)
Lemma graph_reaches_respond (st : AgentState) (m : Message) :
  ∃ (pre : AgentState) (visited : list node),
    graph_ainvoke (append_message st m)
    = Ok (_generate_response pre, visited ++ [generate_response])
    ∧ (generate_response ∉ visited)
    ∧ messages pre = messages st ++ [m].
Proof.
  destruct (process_message_total st m) as (s1 & Hpm).
  pose proof (process_message_messages _ _ Hpm) as M1.
  cbn [append_message messages] in M1.
  unfold graph_ainvoke, recursion_limit.
  rewrite run_from_step by discriminate.
  cbn [run_node next_node]. rewrite Hpm. cbn [mbind result_bind app].
  destruct (should_fetch_portfolio_cases s1) as [-> | ->].
  - do 3 (rewrite run_from_step by discriminate;
          cbn [run_node next_node mbind result_bind app]).
    rewrite run_from_end.
    exists (_analyze_portfolio (_fetch_portfolio s1)),
      [process_message; fetch_portfolio; analyze_portfolio].
    split; [reflexivity|]. split.
    + rewrite !elem_of_cons, elem_of_nil. intros [|[|[|[]]]]; discriminate.
    + now rewrite analyze_portfolio_messages, fetch_portfolio_messages.
  - rewrite run_from_step by discriminate.
    cbn [run_node next_node mbind result_bind app].
    rewrite run_from_end.
    exists s1, [process_message].
    split; [reflexivity|]. split; [|exact M1].
    rewrite elem_of_cons, elem_of_nil. intros [|[]]; discriminate.
Qed.

(** The text that the Respond step appends, spelled out: the oracle's
    answer to the synthesis prompt, and the fixed apology when the state has
    no message, when the context block cannot be rendered or when the
    oracle call raises. *)
Lemma reply_text_cases (state : AgentState) :
  reply_text state
  = match latest_content state with
    | Raise _ => error_response
    | Ok latest_message =>
        match render_context state with
        | Raise _ => error_response
        | Ok context =>
            match llm_ainvoke
                    (response_prompt latest_message
                       (default fallback_intent (intent (user_context state)))
                       context) with
            | Ok response => response
            | Raise _ => error_response
            end
        end
    end.
Proof.
  unfold reply_text, synthesize.
  destruct (latest_content state) as [latest|]; cbn [mbind result_bind];
    [|reflexivity].
  destruct (render_context state) as [context|]; cbn [mbind result_bind];
    reflexivity.
Qed.

(** C9. Whatever the collaborators and the oracle do, including raising
    in any step, a turn runs the graph to the Respond step, which runs once
    and last, and appends exactly one assistant message after the user's.
    Its text is the oracle's answer to the synthesis prompt built from the
    user's text, the intent and the context block; it is the fixed apology
    when that oracle call raises (and when the context block cannot be
    rendered). What FetchPortfolio and Analyze catch leaves a null portfolio
    and a null analysis. *)
Theorem turn_always_replies (session : AgentState) (text : string) :
  ∃ (pre : AgentState) (visited : list node) (final : AgentState)
    (reply : string),
    graph_ainvoke (append_message session (user_message text))
    = Ok (final, visited ++ [generate_response])
    ∧ (generate_response ∉ visited)
    ∧ final = _generate_response pre
    ∧ messages final
      = messages session
        ++ [user_message text; mkMessage "assistant" reply datetime_now]
    ∧ reply
      = match render_context pre with
        | Raise _ => error_response
        | Ok context =>
            match llm_ainvoke
                    (response_prompt text
                       (default fallback_intent (intent (user_context pre)))
                       context) with
            | Ok response => response
            | Raise _ => error_response
            end
        end
    ∧ (∀ state : AgentState,
         portfolio_data (_fetch_portfolio state)
         = match csv_get_portfolio_data
                 ≫= pa_update_portfolio_with_market_data with
           | Ok portfolio => Some portfolio
           | Raise _ => None
           end)
    ∧ (∀ state : AgentState,
         current_analysis (_analyze_portfolio state)
         = match portfolio_data state with
           | None => current_analysis state
           | Some p =>
               match analyses_for state p with
               | Ok (primary :: _) => Some primary
               | Ok [] => current_analysis state
               | Raise _ => None
               end
           end).
Proof.
  destruct (graph_reaches_respond session (user_message text))
    as (pre & visited & Hrun & Hfresh & Hmsgs).
  exists pre, visited, (_generate_response pre), (reply_text pre).
  split; [exact Hrun|]. split; [exact Hfresh|]. split; [reflexivity|].
  split.
  { rewrite generate_response_appends. cbn [append_message messages].
    rewrite Hmsgs, <- app_assoc. reflexivity. }
  split.
  { rewrite reply_text_cases. unfold latest_content.
    rewrite Hmsgs, last_snoc. reflexivity. }
  split; [exact fetch_portfolio_boundary|].
  intros state. destruct (portfolio_data state) as [p|] eqn:Hp.
  - exact (analyze_portfolio_boundary _ _ Hp).
  - unfold _analyze_portfolio. now rewrite Hp.
Qed.

End Orchestrator.

(** ** Supporting facts about the gateways and the transport *)

(** The batch fetch asks for each symbol on its own: a symbol is in the
    result exactly when it was asked for and its fetch succeeded. *)
Lemma get_multiple_market_data_from `{!YahooFinance} (symbols : list string)
    (data : gmap string MarketData) (sym : string) :
  fold_left
    (fun data symbol =>
       match get_market_data symbol with
       | Some market_data => <[symbol := market_data]> data
       | None => data
       end)
    symbols data !! sym
  = if decide (sym ∈ symbols)
    then match get_market_data sym with
         | Some market_data => Some market_data
         | None => data !! sym
         end
    else data !! sym.
Proof.
  revert data. induction symbols as [|s symbols IH]; intros data; simpl.
  - destruct (decide (sym ∈ [])) as [Hin|_]; [|reflexivity].
    now apply elem_of_nil in Hin.
  - rewrite IH.
    destruct (decide (sym ∈ symbols)) as [Hin|Hnin].
    + rewrite decide_True by (now right).
      destruct (get_market_data sym) eqn:Hsym; [reflexivity|].
      destruct (get_market_data s) eqn:Hs; [|reflexivity].
      destruct (decide (s = sym)) as [->|Hne]; [congruence|].
      now rewrite lookup_insert_ne.
    + destruct (decide (s = sym)) as [->|Hne].
      * rewrite decide_True by (now left).
        destruct (get_market_data sym); [|reflexivity].
        now rewrite lookup_insert_eq.
      * rewrite decide_False
          by (rewrite elem_of_cons; intros [?|?]; congruence).
        destruct (get_market_data s); [|reflexivity].
        now rewrite lookup_insert_ne.
Qed.

(** X4. The batch fetch answers, for every symbol, the single fetch of that
    symbol when it was asked for and nothing otherwise: the result is keyed
    by the symbols as they were asked, and a failed fetch leaves no entry. *)
Lemma get_multiple_market_data_lookup `{!YahooFinance}
    (symbols : list string) (sym : string) :
  get_multiple_market_data symbols !! sym
  = if decide (sym ∈ symbols) then get_market_data sym else None.
Proof.
  unfold get_multiple_market_data. rewrite get_multiple_market_data_from.
  rewrite lookup_empty.
  destruct (decide (sym ∈ symbols)); [|reflexivity].
  now destruct (get_market_data sym).
Qed.

Section Transport.
Context `{!Builtins, !LanguageModel, !Collaborators}.



End Transport.

(** ** Enrichment of a quoted holding *)

(** Over the symbols that were asked for, the batch result is the fetch. *)
Lemma market_data_dict_held `{!YahooFinance} (symbols : list string)
    (sym : string) :
  sym ∈ symbols →
  get_multiple_market_data symbols !! sym = get_market_data sym.
Proof.
  intros Hin. unfold get_multiple_market_data.
  rewrite get_multiple_market_data_from, lookup_empty.
  rewrite decide_True by exact Hin. now destruct (get_market_data sym).
Qed.

Section QuotedHolding.
Context `{!Builtins, !YahooFinance}.

(** Enrichment, position by position. *)
Lemma update_portfolio_position (portfolio : PortfolioData) (i : nat)
    (h : PortfolioHolding) :
  holdings portfolio !! i = Some h →
  holdings (update_portfolio_with_market_data portfolio) !! i
  = Some (match get_market_data (symbol h) with
          | Some md => enrich_holding md h
          | None => h
          end).
Proof.
  intros Hi.
  destruct (update_portfolio_unfold portfolio)
    as (hs' & tv & tgl & Hloop & ->).
  destruct (enrich_holdings_post _ _ _ _ _ _ _ Hloop) as (HF & _ & _).
  destruct (Forall2_lookup_l _ _ _ _ _ HF Hi) as (h' & Hi' & _ & Hrel).
  rewrite market_data_dict_held in Hrel.
  - cbn [holdings]. rewrite Hi'.
    now destruct (get_market_data (symbol h)); subst h'.
  - apply list_elem_of_fmap. exists h. split; [reflexivity|].
    eapply list_elem_of_lookup_2; exact Hi.
Qed.

(** C2. For every snapshot and every holding in it whose symbol has a quote
    at price P, enrichment returns a snapshot in which the holding has
    value = quantity x P, gain_loss = (P - avg_cost) x quantity and
    gain_loss_percent = (P - avg_cost) / avg_cost x 100, exactly, in
    binary64; this covers every avg_cost > 0. With avg_cost = 0 enrichment
    does not raise either: the quotient is numpy's, and gain_loss_percent is
    an infinity or NaN. *)
Theorem update_portfolio_quoted_holding (portfolio : PortfolioData)
    (i : nat) (h : PortfolioHolding) (md : MarketData) :
  holdings portfolio !! i = Some h →
  get_market_data (symbol h) = Some md →
  ∃ h' : PortfolioHolding,
    holdings (update_portfolio_with_market_data portfolio) !! i = Some h'
    ∧ value h' = Some (quantity h * price md)%float
    ∧ gain_loss h' = Some ((price md - avg_cost h) * quantity h)%float
    ∧ gain_loss_percent h'
      = Some ((price md - avg_cost h) / avg_cost h * 100)%float
    ∧ (PrimFloat.eqb (avg_cost h) 0 = true →
       finite ((price md - avg_cost h) / avg_cost h * 100) = false).
Proof.
  intros Hi Hmd. exists (enrich_holding md h).
  rewrite (update_portfolio_position _ _ _ Hi), Hmd.
  do 4 (split; [reflexivity|]). intros Hz.
  exact (zero_divisor_not_finite _ _ Hz).
Qed.

(** X10. In every snapshot that enrichment returns, the percentage of the
    aggregates is 0 when the two totals are equal and their guarded ratio
    otherwise, and the test [total_value != total_gain_loss] alone keeps
    the divisor [total_value - total_gain_loss] away from zero: the
    division could not raise even between Python floats. *)
Theorem update_portfolio_divisor_nonzero (portfolio : PortfolioData) :
  ∃ tv tgl : float,
    total_value (update_portfolio_with_market_data portfolio) = Some tv
    ∧ total_gain_loss (update_portfolio_with_market_data portfolio) = Some tgl
    ∧ total_gain_loss_percent (update_portfolio_with_market_data portfolio)
      = Some (if ne tv tgl then (tgl / (tv - tgl) * 100)%float else 0%float)
    ∧ (ne tv tgl = true →
       PrimFloat.eqb (tv - tgl) 0 = false
       ∧ truediv tgl (tv - tgl) = Ok (tgl / (tv - tgl))%float).
Proof.
  destruct (update_portfolio_unfold portfolio)
    as (hs' & tv & tgl & _ & ->).
  exists tv, tgl. do 3 (split; [reflexivity|]).
  intros Hne. unfold ne in Hne. apply negb_true_iff in Hne.
  pose proof (float_sub_nonzero _ _ Hne) as Hz.
  split; [exact Hz|]. unfold truediv. now rewrite Hz.
Qed.

End QuotedHolding.

(** C2, on a position bought at no cost: AAPL, 10 shares at 0, quoted at
    150, is enriched with value 1500, gain 1500 and an infinite
    percentage. *)
Lemma update_portfolio_quoted_holding_example :
  holdings free_position !! 0%nat = Some (ledger_holding "AAPL" 10 0)
  ∧ @get_market_data example_yahoo "AAPL" = Some (example_quote "AAPL" 150)
  ∧ PrimFloat.eqb (avg_cost (ledger_holding "AAPL" 10 0)) 0 = true
  ∧ @update_portfolio_with_market_data example_builtins example_yahoo
      free_position = free_position_enriched
  ∧ ∃ h' : PortfolioHolding,
      holdings free_position_enriched !! 0%nat = Some h'
      ∧ value h' = Some 1500%float
      ∧ gain_loss h' = Some 1500%float
      ∧ gain_loss_percent h' = Some infinity
      ∧ finite infinity = false.
Proof.
  assert (@update_portfolio_with_market_data example_builtins example_yahoo
            free_position = free_position_enriched) as Hrun
    by (vm_compute; reflexivity).
  split; [reflexivity|]. split; [reflexivity|]. split; [reflexivity|].
  split; [exact Hrun|]. rewrite <- Hrun.
  destruct (@update_portfolio_quoted_holding example_builtins example_yahoo
              free_position 0%nat (ledger_holding "AAPL" 10 0)
              (example_quote "AAPL" 150) eq_refl eq_refl)
    as (h' & Hi & Hv & Hg & Hp & Hz).
  exists h'. split; [exact Hi|]. split; [exact Hv|]. split; [exact Hg|].
  split; [exact Hp|]. exact (Hz eq_refl).
Defined.

(** * Further properties of the code *)

(** ** Enrichment, holding by holding *)

Section EnrichmentMore.
Context `{!Builtins, !YahooFinance}.

(** X9. In the snapshot that enrichment returns, a holding whose symbol
    got a quote at price P keeps its symbol, quantity and average cost and
    carries current_price = P, value = quantity x P, gain_loss =
    (P - avg_cost) x quantity and gain_loss_percent = (P - avg_cost) /
    avg_cost x 100, whatever the average cost. *)
Theorem update_portfolio_holding_figures (portfolio : PortfolioData)
    (i : nat) (h : PortfolioHolding) (md : MarketData) :
  holdings portfolio !! i = Some h →
  get_market_data (symbol h) = Some md →
  holdings (update_portfolio_with_market_data portfolio) !! i
  = Some (mkHolding (symbol h) (quantity h) (avg_cost h)
            (Some (price md))
            (Some (quantity h * price md)%float)
            (Some ((price md - avg_cost h) * quantity h)%float)
            (Some ((price md - avg_cost h) / avg_cost h * 100)%float)).
Proof.
  intros Hi Hmd.
  now rewrite (update_portfolio_position _ _ _ Hi), Hmd.
Qed.

End EnrichmentMore.

(** A holding that enrichment has filled in is a fixed point of the loop
    body. *)
Lemma enrich_holding_again (md : MarketData) (h : PortfolioHolding) :
  enrich_holding md (enrich_holding md h) = enrich_holding md h.
Proof. reflexivity. Qed.

Lemma enrich_holdings_again (quotes : gmap string MarketData)
    (hs hs' : list PortfolioHolding) (tv tgl tv' tgl' : float) :
  enrich_holdings quotes hs tv tgl = (hs', tv', tgl') →
  enrich_holdings quotes hs' tv tgl = (hs', tv', tgl').
Proof.
  revert hs' tv tgl tv' tgl'.
  induction hs as [|h hs IH]; intros hs' tv tgl tv' tgl'; simpl.
  - intros [= <- <- <-]. reflexivity.
  - destruct (quotes !! symbol h) as [md|] eqn:Hq.
    + destruct (enrich_holdings quotes hs _ _) as [[rest tv1] tgl1] eqn:Hr.
      intros [= <- <- <-]. simpl. rewrite Hq. simpl.
      now rewrite (IH _ _ _ _ _ Hr).
    + destruct (enrich_holdings quotes hs _ _) as [[rest tv1] tgl1] eqn:Hr.
      intros [= <- <- <-]. simpl. rewrite Hq.
      now rewrite (IH _ _ _ _ _ Hr).
Qed.

Section Again.
Context `{!Builtins, !YahooFinance}.

Lemma update_portfolio_again (portfolio : PortfolioData) :
  update_portfolio_with_market_data
    (update_portfolio_with_market_data portfolio)
  = update_portfolio_with_market_data portfolio.
Proof.
  destruct (update_portfolio_unfold portfolio)
    as (hs' & tv & tgl & Hloop & ->).
  unfold update_portfolio_with_market_data at 1. cbn [holdings].
  change (symbol <$> holdings portfolio)
    with (map symbol (holdings portfolio)) in Hloop.
  rewrite (enrich_holdings_symbols _ _ _ _ _ _ _ Hloop).
  now rewrite (enrich_holdings_again _ _ _ _ _ _ _ Hloop).
Qed.

(** X11. Enriching again the snapshot that enrichment returned gives the
    same holdings and the same aggregates, for every snapshot: the derived
    fields are recomputed from symbol, quantity, average cost and quote
    alone, so earlier values never accumulate. *)
Theorem update_portfolio_idempotent (portfolio : PortfolioData) :
  let after := update_portfolio_with_market_data portfolio in
  let again := update_portfolio_with_market_data after in
  holdings again = holdings after
  ∧ total_value again = total_value after
  ∧ total_gain_loss again = total_gain_loss after
  ∧ total_gain_loss_percent again = total_gain_loss_percent after.
Proof.
  intros after again. subst after again.
  now rewrite update_portfolio_again.
Qed.

(** X12. When the gateway has no quote for any held symbol, enrichment
    returns the holdings as they were, with both totals and the percentage
    at 0, whatever the average costs. *)
Theorem update_portfolio_no_quotes (portfolio : PortfolioData) :
  Forall (fun h => get_market_data (symbol h) = None) (holdings portfolio) →
  update_portfolio_with_market_data portfolio
  = mkPortfolio (holdings portfolio) (Some 0%float) (Some 0%float)
      (Some 0%float) (Some datetime_now).
Proof.
  intros Hnone. unfold update_portfolio_with_market_data.
  set (quotes := get_multiple_market_data _).
  assert (∀ hs tv tgl,
            Forall (fun h => quotes !! symbol h = None) hs →
            enrich_holdings quotes hs tv tgl = (hs, tv, tgl)) as Hloop.
  { induction hs as [|h hs IH]; intros tv tgl Hall; [reflexivity|].
    apply Forall_cons in Hall as [Hh Hall]. simpl. rewrite Hh.
    now rewrite (IH _ _ Hall). }
  rewrite Hloop; [reflexivity|].
  apply Forall_forall. intros h Hin.
  unfold quotes. rewrite market_data_dict_held.
  - rewrite Forall_forall in Hnone. exact (Hnone h Hin).
  - apply list_elem_of_fmap. eauto.
Qed.

End Again.

(** *** On the example positions *)

Lemma update_portfolio_holding_figures_example :
  holdings three_positions !! 2%nat = Some (ledger_holding "MSFT" 2 300)
  ∧ @get_market_data example_yahoo "MSFT" = Some (example_quote "MSFT" 250)
  ∧ holdings (@update_portfolio_with_market_data example_builtins
                example_yahoo three_positions) !! 2%nat
    = Some (mkHolding "MSFT" 2 300 (Some 250%float) (Some (2 * 250)%float)
              (Some ((250 - 300) * 2)%float)
              (Some ((250 - 300) / 300 * 100)%float)).
Proof.
  split; [reflexivity|]. split; [reflexivity|].
  exact (@update_portfolio_holding_figures example_builtins example_yahoo
           three_positions 2%nat
           (ledger_holding "MSFT" 2 300) (example_quote "MSFT" 250)
           eq_refl eq_refl).
Defined.

Lemma update_portfolio_no_quotes_example :
  Forall (fun h => @get_market_data silent_yahoo (symbol h) = None)
    (holdings mixed_positions)
  ∧ @update_portfolio_with_market_data example_builtins silent_yahoo
      mixed_positions
    = mkPortfolio (holdings mixed_positions) (Some 0%float) (Some 0%float)
        (Some 0%float) (Some 0%Z).
Proof.
  assert (Forall (fun h => @get_market_data silent_yahoo (symbol h) = None)
            (holdings mixed_positions)) as Hnone
    by (repeat constructor).
  split; [exact Hnone|].
  exact (@update_portfolio_no_quotes example_builtins silent_yahoo _ Hnone).
Defined.

(** ** Strings: case and whitespace *)

Lemma is_space_upper (c : ascii) : is_space (upper_ascii c) = is_space c.
Proof. destruct c as [[] [] [] [] [] [] [] []]; reflexivity. Qed.

Lemma upper_ascii_idem (c : ascii) :
  upper_ascii (upper_ascii c) = upper_ascii c.
Proof. destruct c as [[] [] [] [] [] [] [] []]; reflexivity. Qed.

Lemma lower_upper_ascii (c : ascii) :
  lower_ascii (upper_ascii c) = lower_ascii c.
Proof. destruct c as [[] [] [] [] [] [] [] []]; reflexivity. Qed.

Lemma lower_ascii_idem (c : ascii) :
  lower_ascii (lower_ascii c) = lower_ascii c.
Proof. destruct c as [[] [] [] [] [] [] [] []]; reflexivity. Qed.

Lemma map_string_compose (f g h : ascii → ascii) (s : string) :
  (∀ c, f (g c) = h c) → map_string f (map_string g s) = map_string h s.
Proof.
  intros Hc. induction s as [|c s IH]; simpl; [reflexivity|].
  now rewrite Hc, IH.
Qed.

Lemma upper_idem (s : string) : upper (upper s) = upper s.
Proof. apply map_string_compose, upper_ascii_idem. Qed.

Lemma lower_upper (s : string) : lower (upper s) = lower s.
Proof. apply map_string_compose, lower_upper_ascii. Qed.

Lemma lower_idem (s : string) : lower (lower s) = lower s.
Proof. apply map_string_compose, lower_ascii_idem. Qed.

Lemma lstrip_upper (s : string) : lstrip (upper s) = upper (lstrip s).
Proof.
  induction s as [|c s IH]; [reflexivity|].
  unfold upper in *. simpl. rewrite is_space_upper.
  now destruct (is_space c).
Qed.

Lemma rstrip_upper (s : string) : rstrip (upper s) = upper (rstrip s).
Proof.
  induction s as [|c s IH]; [reflexivity|].
  unfold upper in *. simpl. rewrite IH, is_space_upper.
  destruct (rstrip s); simpl; [now destruct (is_space c)|reflexivity].
Qed.

Lemma strip_upper (s : string) : strip (upper s) = upper (strip s).
Proof. unfold strip. now rewrite lstrip_upper, rstrip_upper. Qed.

Lemma upper_empty (s : string) : upper s = "" → s = "".
Proof. now destruct s. Qed.

Lemma lstrip_idem (s : string) : lstrip (lstrip s) = lstrip s.
Proof.
  induction s as [|c s IH]; [reflexivity|]. simpl.
  destruct (is_space c) eqn:Hc; [exact IH|]. simpl. now rewrite Hc.
Qed.

Lemma rstrip_idem (s : string) : rstrip (rstrip s) = rstrip s.
Proof.
  induction s as [|c s IH]; [reflexivity|]. simpl.
  destruct (rstrip s) as [|k kept] eqn:Hk.
  - destruct (is_space c) eqn:Hc; [reflexivity|]. simpl. now rewrite Hc.
  - change (rstrip (String c (String k kept)))
      with (match rstrip (String k kept) with
            | EmptyString =>
                if is_space c then EmptyString else String c EmptyString
            | String k0 kept0 => String c (String k0 kept0)
            end).
    now rewrite IH.
Qed.

(** What [rstrip] keeps begins as the string did. *)
Lemma lstrip_rstrip (s : string) :
  lstrip s = s → lstrip (rstrip s) = rstrip s.
Proof.
  destruct s as [|c s]; [reflexivity|]. simpl.
  destruct (is_space c) eqn:Hc.
  - intros Hs. exfalso.
    assert (∀ t, String.length (lstrip t) <= String.length t)%nat as Hlen.
    { induction t as [|d t IH]; simpl; [lia|]. destruct (is_space d); simpl; lia. }
    specialize (Hlen s). rewrite Hs in Hlen. simpl in Hlen. lia.
  - intros _. destruct (rstrip s); simpl; now rewrite Hc.
Qed.

Lemma strip_idem (s : string) : strip (strip s) = strip s.
Proof.
  unfold strip.
  rewrite (lstrip_rstrip (lstrip s)) by apply lstrip_idem.
  apply rstrip_idem.
Qed.

(** ** Ledger reader, for every file *)

Section LedgerMore.
Context `{!Builtins}.

(** Whenever the loop body returns, it returns what the specification of
    a row says, short rows included. *)
Lemma read_row_ok (row : csv_row) (x : option PortfolioHolding) :
  read_row row = Ok x → x = Spec.row_holding row.
Proof.
  unfold read_row, Spec.row_holding, Spec.cell_text, row_symbol_stripped,
    row_symbol_upper, row_float.
  destruct (row !! "Symbol") as [[sym|]|]; simpl;
    [|discriminate|now intros [= <-]].
  destruct (String.eqb (strip sym) ""); simpl; [now intros [= <-]|].
  destruct (row !! "Quantity") as [[q|]|]; simpl;
    [|discriminate|now intros [= <-]].
  destruct (float_of_str q) as [qty|]; simpl; [|now intros [= <-]].
  destruct (row !! "Average Cost") as [[c|]|]; simpl;
    [|discriminate|now intros [= <-]].
  destruct (float_of_str c) as [cost|]; simpl; now intros [= <-].
Qed.

Lemma read_rows_ok (rows : list csv_row) (acc hs : list PortfolioHolding) :
  read_rows rows acc = Ok hs → hs = acc ++ omap Spec.row_holding rows.
Proof.
  revert acc. induction rows as [|row rows IH]; intros acc; simpl.
  - intros [= <-]. now rewrite app_nil_r.
  - destruct (read_row row) as [x|] eqn:Hrow; simpl; [|discriminate].
    apply read_row_ok in Hrow as ->. intros Hrest%IH.
    destruct (Spec.row_holding row); [|exact Hrest].
    now rewrite Hrest, <- app_assoc.
Qed.

Lemma get_portfolio_data_cases (file : ledger_file) :
  ∃ hs : list PortfolioHolding,
    get_portfolio_data file
    = mkPortfolio hs (Some 0%float) (Some 0%float) (Some 0%float)
        (Some datetime_now)
    ∧ (hs = []
       ∨ ∃ rows, file = FileOpened rows None
                 ∧ hs = omap Spec.row_holding rows).
Proof.
  destruct file as [|e|rows [e|]]; unfold get_portfolio_data; simpl;
    try (exists []; split; [reflexivity|now left]).
  - destruct (read_rows rows []); exists []; split; (reflexivity || now left).
  - destruct (read_rows rows []) as [hs|] eqn:Hrows; simpl.
    + exists hs. split; [reflexivity|]. right. exists rows.
      split; [reflexivity|]. exact (read_rows_ok _ _ _ Hrows).
    + exists []. split; [reflexivity|now left].
Qed.

(** X2. The reader is all or nothing: the snapshot holds either no
    holding at all, or one holding for every row of the file that has a
    non-blank symbol and two parsable numbers, in file order. A file that
    is missing or cannot be opened, a read error at any point and a row that
    makes the loop raise all give the empty snapshot, never a partial one. *)
Theorem get_portfolio_data_all_or_nothing (file : ledger_file) :
  holdings (get_portfolio_data file) = []
  ∨ ∃ rows : list csv_row,
      file = FileOpened rows None
      ∧ holdings (get_portfolio_data file) = omap Spec.row_holding rows.
Proof.
  destruct (get_portfolio_data_cases file) as (hs & -> & [->|Hrows]).
  - now left.
  - now right.
Qed.

Lemma row_holding_normalized (row : csv_row) (h : PortfolioHolding) :
  Spec.row_holding row = Some h →
  Spec.unenriched h ∧ symbol h ≠ ""
  ∧ strip (symbol h) = symbol h ∧ upper (symbol h) = symbol h.
Proof.
  intros Hrow. split; [exact (row_holding_unenriched _ _ Hrow)|].
  revert Hrow. unfold Spec.row_holding.
  destruct (Spec.cell_text row "Symbol") as [sym|]; simpl; [|discriminate].
  destruct (String.eqb (strip sym) "") eqn:Hblank; [discriminate|].
  destruct (Spec.cell_text row "Quantity" ≫= float_of_str); simpl;
    [|discriminate].
  destruct (Spec.cell_text row "Average Cost" ≫= float_of_str); simpl;
    [|discriminate].
  intros [= <-]. cbn [symbol].
  apply String.eqb_neq in Hblank.
  split; [|split].
  - rewrite strip_upper. intros Hempty%upper_empty. contradiction.
  - apply strip_idem.
  - now rewrite strip_upper, upper_idem.
Qed.

(** X3. For every ledger whose symbol cells are ASCII texts (where [upper]
    and [strip] are Python's), be it missing, unreadable or read to its
    end, every holding of the snapshot the reader returns has all derived
    fields absent and a symbol that is non-empty, has no surrounding
    whitespace and no lower-case letter; the three aggregates are 0. *)
Theorem get_portfolio_data_invariant (file : ledger_file) :
  ascii_symbols file = true →
  Forall (fun h => Spec.unenriched h ∧ symbol h ≠ ""
                   ∧ strip (symbol h) = symbol h
                   ∧ upper (symbol h) = symbol h)
    (holdings (get_portfolio_data file))
  ∧ total_value (get_portfolio_data file) = Some 0%float
  ∧ total_gain_loss (get_portfolio_data file) = Some 0%float
  ∧ total_gain_loss_percent (get_portfolio_data file) = Some 0%float.
Proof.
  intros _.
  destruct (get_portfolio_data_cases file) as (hs & -> & Hhs).
  split; [|auto]. cbn [holdings].
  destruct Hhs as [->|(rows & _ & ->)]; [constructor|].
  apply Forall_forall. intros h Hin.
  apply list_elem_of_omap in Hin as (row & _ & Hrow).
  exact (row_holding_normalized _ _ Hrow).
Qed.

End LedgerMore.

(** ** Recommendation engine: what decides the action *)

Section RecommendationMore.
Context `{!Builtins}.

(** X7. The action is BUY exactly when the price is up more than 5
    percent, the sentiment is not NEGATIVE and the holding has no gains
    above 20 percent; SELL exactly when the price is down more than 5
    percent and the sentiment is not POSITIVE; HOLD in every other case. *)
Theorem generate_recommendation_action
    (market_data : MarketData) (s : SentimentIndicator)
    (news : list NewsItem) (holding : option PortfolioHolding) :
  fst (fst (_generate_recommendation market_data s news holding))
  = if gt (change_percent market_data) 5
       && negb (bool_decide (s = NEGATIVE)) && negb (large_gains holding)
    then BUY
    else if negb (gt (change_percent market_data) 5)
            && lt (change_percent market_data) (-5)
            && negb (bool_decide (s = POSITIVE))
    then SELL
    else HOLD.
Proof.
  unfold _generate_recommendation, large_gains, Py.gt, Py.lt.
  destruct (PrimFloat.ltb 5 (change_percent market_data));
    [ | destruct (PrimFloat.ltb (change_percent market_data) (-5)) ];
    destruct s;
    (destruct holding as [[? ? ? ? ? ? [glp|]]|];
     [ cbn [gain_loss_percent mbind option_bind];
       destruct (PrimFloat.ltb 20 glp);
       [ | destruct (PrimFloat.ltb glp (-20)) ] | | ]);
    reflexivity.
Qed.

(** X8. The holding decides one thing only: when the result without it is
    BUY and the holding has gains above 20 percent, the action becomes HOLD
    and the confidence max(confidence - 0.1, 0.3); in every other case the
    action and the confidence are those without the holding. *)
Theorem generate_recommendation_holding_effect
    (market_data : MarketData) (s : SentimentIndicator)
    (news : list NewsItem) (holding : option PortfolioHolding) :
  let without := _generate_recommendation market_data s news None in
  let with_holding := _generate_recommendation market_data s news holding in
  fst with_holding
  = if bool_decide (fst (fst without) = BUY) && large_gains holding
    then (HOLD, max (snd (fst without) - 0.1)%float 0.3%float)
    else fst without.
Proof.
  unfold _generate_recommendation, large_gains, Py.gt, Py.lt.
  destruct (PrimFloat.ltb 5 (change_percent market_data));
    [ | destruct (PrimFloat.ltb (change_percent market_data) (-5)) ];
    destruct s;
    (destruct holding as [[? ? ? ? ? ? [glp|]]|];
     [ cbn [gain_loss_percent mbind option_bind];
       destruct (PrimFloat.ltb 20 glp);
       [ | destruct (PrimFloat.ltb glp (-20)) ] | | ]);
    reflexivity.
Qed.

End RecommendationMore.

(** ** Relevance score: letter case *)

(** X5. The relevance score does not depend on the letter case of the
    text or of the symbol. *)
Theorem calculate_relevance_case_insensitive (text sym : string) :
  _calculate_relevance (upper text) (lower sym) = _calculate_relevance text sym
  ∧ _calculate_relevance (lower text) (upper sym) = _calculate_relevance text sym.
Proof.
  unfold _calculate_relevance.
  now rewrite !lower_upper, !lower_idem.
Qed.

(** ** Relevance score: range *)

Lemma iter_shr_1_nonneg (n : nat) (m : Z) (r s : bool) :
  (0 <= m)%Z → (0 <= shr_m (Nat.iter n shr_1 (Build_shr_record m r s)))%Z.
Proof.
  revert m r s. induction n as [|n IH]; intros m r s Hm; [exact Hm|].
  rewrite Nat.iter_succ_r.
  destruct m as [|[p|p|]|p]; simpl; try (apply IH; lia). lia.
Qed.

Lemma shr_fexp_nonneg (m e : Z) (l : location) :
  (0 <= m)%Z → (0 <= shr_m (fst (shr_fexp prec emax m e l)))%Z.
Proof.
  intros Hm. unfold shr_fexp, shr.
  assert (∃ r s, shr_record_of_loc m l = Build_shr_record m r s)
    as (r & s & ->) by (destruct l as [|[]]; simpl; eauto).
  destruct (fexp prec emax (Zdigits2 m + e) - e)%Z; simpl; try exact Hm.
  rewrite iter_pos_nat. now apply iter_shr_1_nonneg.
Qed.

Lemma binary_round_aux_nonneg (m : positive) (e : Z) (l : location) :
  nonneg (binary_round_aux prec emax false (Zpos m) e l) = true.
Proof.
  unfold binary_round_aux.
  pose proof (shr_fexp_nonneg (Zpos m) e l ltac:(lia)) as H1.
  destruct (shr_fexp prec emax (Zpos m) e l) as [mrs1 e1]. cbn [fst] in H1.
  assert (0 <= round_nearest_even (shr_m mrs1) (loc_of_shr_record mrs1))%Z as H2.
  { destruct mrs1 as [m1 [] []]; cbn [shr_m] in H1; simpl; try lia.
    destruct (Z.even m1); lia. }
  pose proof (shr_fexp_nonneg _ e1 loc_Exact H2) as H3.
  destruct (shr_fexp prec emax _ e1 loc_Exact) as [mrs2 e2]. cbn [fst] in H3.
  destruct (shr_m mrs2); [reflexivity| |lia].
  match goal with |- context [if ?b then _ else _] => destruct b end; reflexivity.
Qed.

Lemma binary_normalize_nonneg (m e : Z) :
  (0 <= m)%Z → nonneg (binary_normalize prec emax m e false) = true.
Proof.
  intros Hm. destruct m as [|p|p]; [reflexivity| |lia].
  unfold binary_normalize, binary_round.
  destruct (shl_align _ _ _). apply binary_round_aux_nonneg.
Qed.

Lemma float_of_nat_nonneg (n : nat) : nonneg (Prim2SF (float_of_nat n)) = true.
Proof.
  unfold float_of_nat. rewrite of_uint63_spec.
  apply binary_normalize_nonneg.
  pose proof (Uint63.to_Z_bounded (Uint63.of_Z (Z.of_nat n))). lia.
Qed.

Lemma mul_positive_nonneg (x c : float) :
  positive_finite (Prim2SF c) = true →
  nonneg (Prim2SF x) = true → nonneg (Prim2SF (x * c)) = true.
Proof.
  intros Hc Hx. rewrite mul_spec. unfold SF64mul.
  destruct (Prim2SF c) as [?|?| |[] mc ec]; try discriminate.
  destruct (Prim2SF x) as [sx|[]| |[] mx ex]; try discriminate; simpl.
  - reflexivity.
  - reflexivity.
  - apply binary_round_aux_nonneg.
Qed.

Lemma add_nonneg (x y : float) :
  nonneg (Prim2SF x) = true → nonneg (Prim2SF y) = true →
  nonneg (Prim2SF (x + y)) = true.
Proof.
  intros Hx Hy. rewrite add_spec. unfold SF64add.
  destruct (Prim2SF x) as [[]|[]| |[] mx ex], (Prim2SF y) as [[]|[]| |[] my ey];
    try discriminate; try reflexivity.
  cbn [SFadd cond_Zopp]. apply binary_normalize_nonneg.
  change IntDef.Z.add with Z.add. lia.
Qed.

(** A float that is neither NaN nor negative and is not above 1 lies in
    [0, 1]. *)
Lemma nonneg_not_above_one (x : float) :
  nonneg (Prim2SF x) = true → PrimFloat.ltb 1 x = false →
  PrimFloat.leb 0 x = true ∧ PrimFloat.leb x 1 = true.
Proof.
  rewrite FloatAxioms.ltb_spec, !leb_spec.
  set (one := Prim2SF 1). set (zero := Prim2SF 0).
  vm_compute in one, zero. subst one zero.
  unfold SFltb, SFleb.
  destruct (Prim2SF x) as [[]|[]| |[] m e]; try discriminate;
    intros _; try (split; reflexivity); try discriminate.
  cbn [SFcompare].
  rewrite (Z.compare_antisym e (-52)).
  destruct (e ?= -52)%Z; cbn [CompOpp].
  2,3: first [discriminate | intros _; split; reflexivity].
  pose proof (Pos.compare_cont_antisym m 4503599627370496 Eq) as Ha.
  cbn [CompOpp] in Ha.
  rewrite <- Ha.
  destruct (PosDef.Pos.compare_cont Eq m 4503599627370496); cbn [CompOpp].
  all: first [discriminate | intros _; split; reflexivity].
Qed.

(** X6. The relevance score of every text for every symbol lies in
    [0, 1]. *)
Theorem calculate_relevance_range (text sym : string) :
  PrimFloat.leb 0 (_calculate_relevance text sym) = true
  ∧ PrimFloat.leb (_calculate_relevance text sym) 1 = true.
Proof.
  unfold _calculate_relevance, Py.min, Py.lt.
  set (r := (_ + _)%float).
  destruct (PrimFloat.ltb 1 r) eqn:Habove; [split; reflexivity|].
  apply nonneg_not_above_one; [|exact Habove].
  apply add_nonneg; (apply mul_positive_nonneg;
    [vm_compute; reflexivity | apply float_of_nat_nonneg]).
Qed.

(** ** Orchestrator: routes and what each step leaves alone *)

Section OrchestratorMore.
Context `{!Builtins, !LanguageModel, !Collaborators}.

Lemma process_message_frame (state state' : AgentState) :
  _process_message state = Ok state' →
  messages state' = messages state
  ∧ portfolio_data state' = portfolio_data state
  ∧ current_analysis state' = current_analysis state
  ∧ all_analyses (user_context state') = all_analyses (user_context state)
  ∧ last_action state' = last_action state.
Proof.
  unfold _process_message.
  destruct (latest_content state) as [latest|]; simpl; [|discriminate].
  intros [= <-].
  destruct (llm_ainvoke _) as [response|]; simpl; [|now repeat split].
  destruct (json_loads _) as [[| | | | | |members]|]; now repeat split.
Qed.

(** X15. Each step of the pipeline writes its own part of the state and
    nothing else: Classify only the three classification keys,
    FetchPortfolio only the portfolio, Analyze only the analysis and the
    list of analyses, Respond only the messages. So a turn that skips
    FetchPortfolio and Analyze reaches Respond with the portfolio and the
    analysis that earlier turns left in the session. *)
Theorem pipeline_steps_frame (st : AgentState) (m : Message) :
  (∃ state' : AgentState,
     _process_message (append_message st m) = Ok state'
     ∧ messages state' = messages st ++ [m]
     ∧ portfolio_data state' = portfolio_data st
     ∧ current_analysis state' = current_analysis st
     ∧ all_analyses (user_context state') = all_analyses (user_context st)
     ∧ last_action state' = last_action st)
  ∧ (messages (_fetch_portfolio st) = messages st
     ∧ current_analysis (_fetch_portfolio st) = current_analysis st
     ∧ user_context (_fetch_portfolio st) = user_context st
     ∧ last_action (_fetch_portfolio st) = last_action st)
  ∧ (messages (_analyze_portfolio st) = messages st
     ∧ portfolio_data (_analyze_portfolio st) = portfolio_data st
     ∧ intent (user_context (_analyze_portfolio st)) = intent (user_context st)
     ∧ symbols (user_context (_analyze_portfolio st))
       = symbols (user_context st)
     ∧ requires_portfolio (user_context (_analyze_portfolio st))
       = requires_portfolio (user_context st)
     ∧ last_action (_analyze_portfolio st) = last_action st)
  ∧ (portfolio_data (_generate_response st) = portfolio_data st
     ∧ current_analysis (_generate_response st) = current_analysis st
     ∧ user_context (_generate_response st) = user_context st
     ∧ last_action (_generate_response st) = last_action st).
Proof.
  split; [|split; [|split]].
  - destruct (process_message_total st m) as (state' & Hrun).
    exists state'. split; [exact Hrun|].
    exact (process_message_frame _ _ Hrun).
  - unfold _fetch_portfolio.
    destruct csv_get_portfolio_data as [p|]; simpl; [|now repeat split].
    destruct (pa_update_portfolio_with_market_data p); now repeat split.
  - unfold _analyze_portfolio.
    destruct (portfolio_data st) as [p|] eqn:Hp; [|now repeat split].
    destruct (analyses_for st p) as [[|a l]|]; simpl; now repeat split.
  - rewrite generate_response_appends. now repeat split.
Qed.

(** X14. A turn takes one of two routes through the graph, decided by the
    classification alone: Classify, FetchPortfolio, Analyze, Respond when
    the portfolio is wanted, and Classify, Respond otherwise. Analyze never
    runs without FetchPortfolio before it, and no node runs twice. *)
Theorem graph_routes (st : AgentState) (m : Message) :
  ∃ (classified : AgentState) (c : Spec.classification),
    _process_message (append_message st m) = Ok classified
    ∧ Spec.classified classified = Some c
    ∧ graph_ainvoke (append_message st m)
      = Ok (if Spec.wants_portfolio c
            then (_generate_response
                    (_analyze_portfolio (_fetch_portfolio classified)),
                  [process_message; fetch_portfolio; analyze_portfolio;
                   generate_response])
            else (_generate_response classified,
                  [process_message; generate_response])).
Proof.
  destruct (process_message_total st m) as (s1 & Hpm).
  assert (∃ c, Spec.classified s1 = Some c) as (c & Hc).
  { revert Hpm. unfold _process_message.
    destruct (latest_content _) as [latest|]; simpl; [|discriminate].
    intros [= <-].
    destruct (llm_ainvoke _) as [response|]; simpl; [|eauto].
    destruct (json_loads _) as [[| | | | | |members]|]; simpl; eauto. }
  exists s1, c. split; [exact Hpm|]. split; [exact Hc|].
  unfold graph_ainvoke, recursion_limit.
  rewrite run_from_step by discriminate.
  cbn [run_node next_node]. rewrite Hpm. cbn [mbind result_bind app].
  rewrite (should_fetch_portfolio_classified _ _ Hc).
  destruct (Spec.wants_portfolio c).
  - do 3 (rewrite run_from_step by discriminate;
          cbn [run_node next_node mbind result_bind app]).
    now rewrite run_from_end.
  - rewrite run_from_step by discriminate.
    cbn [run_node next_node mbind result_bind app].
    now rewrite run_from_end.
Qed.

(** X22. A turn of one user leaves the session of every other user as it
    was, whether the graph returns or raises. *)
Theorem process_telegram_message_isolated (user_sessions : gmap Z AgentState)
    (user_id other : Z) (message_text : string) :
  other ≠ user_id →
  fst (process_telegram_message user_sessions user_id message_text) !! other
  = user_sessions !! other.
Proof.
  intros Hother.
  unfold process_telegram_message, get_or_create_session.
  destruct (user_sessions !! user_id) as [session|];
    (destruct (graph_ainvoke _) as [[final visited]|]; cbn [mbind result_bind catch fst];
     rewrite ?lookup_insert_ne by congruence; reflexivity).
Qed.

End OrchestratorMore.

(** ** The context block of the reply *)

Section ContextBlock.
Context `{!Builtins, !Formats}.

Lemma performer_lines_ok (hs : list PortfolioHolding) :
  is_ok (performer_lines hs)
  = forallb (fun h => bool_decide (is_Some (gain_loss_percent h))) hs.
Proof.
  induction hs as [|h hs IH]; [reflexivity|]. simpl.
  unfold performer_line, format_opt.
  destruct (gain_loss_percent h) as [glp|]; simpl; [|reflexivity].
  rewrite <- IH. now destruct (performer_lines hs).
Qed.

Lemma forallb_take {A} (p : A → bool) (n : nat) (l : list A) :
  forallb p l = true → forallb p (take n l) = true.
Proof.
  revert n. induction l as [|x l IH]; intros [|n]; simpl; try reflexivity.
  intros [Hx Hl]%andb_prop. rewrite Hx. simpl. auto.
Qed.

Lemma forallb_permutation {A} (p : A → bool) (l l' : list A) :
  l ≡ₚ l' → forallb p l = forallb p l'.
Proof.
  induction 1 as [|x l l' _ IH|x y l|l1 l2 l3 _ IH1 _ IH2]; simpl.
  - reflexivity.
  - now rewrite IH.
  - destruct (p x), (p y); reflexivity.
  - congruence.
Qed.

Lemma existsb_none_forallb_some (hs : list PortfolioHolding) :
  existsb (fun h => bool_decide (gain_loss_percent h = None)) hs
  = negb (forallb (fun h => bool_decide (is_Some (gain_loss_percent h))) hs).
Proof.
  induction hs as [|h hs IH]; [reflexivity|]. simpl. rewrite IH.
  now destruct (gain_loss_percent h).
Qed.

Lemma portfolio_parts_ok (portfolio : PortfolioData) :
  is_ok (portfolio_parts portfolio) = renderable portfolio.
Proof.
  unfold portfolio_parts, renderable, format_opt.
  destruct (total_value portfolio) as [tv|]; simpl; [|reflexivity].
  destruct (total_gain_loss portfolio) as [tgl|]; simpl; [|reflexivity].
  destruct (total_gain_loss_percent portfolio) as [pct|]; simpl; [|reflexivity].
  destruct (holdings portfolio) as [|h hs] eqn:Hhs; [reflexivity|].
  set (all := h :: hs).
  set (complete := forallb _ all).
  unfold sorted_by_gain. rewrite existsb_none_forallb_some. fold complete.
  destruct complete eqn:Hall.
  - rewrite andb_false_r. simpl.
    assert (∀ r, is_ok (performer_lines (take 3 (sorted_order r all))) = true)
      as Hlines.
    { intros r. rewrite performer_lines_ok. apply forallb_take.
      now rewrite (forallb_permutation _ _ _ (sorted_order_permutation r all)). }
    pose proof (Hlines true) as Ht. pose proof (Hlines false) as Hw.
    destruct (performer_lines (take 3 (sorted_order true all))); [|discriminate].
    destruct (performer_lines (take 3 (sorted_order false all))); [|discriminate].
    reflexivity.
  - rewrite andb_true_r.
    destruct (2 <=? length all)%nat eqn:Hlen; [reflexivity|]. simpl.
    assert (hs = []) as -> by (destruct hs; [reflexivity|discriminate]).
    subst all. 
    assert (sorted_order true [h] = [h]) as ->
      by (apply Permutation_singleton_r, sorted_order_permutation).
    subst complete. cbn [forallb] in Hall. cbn [take performer_lines].
    unfold performer_line, format_opt.
    destruct (gain_loss_percent h); [discriminate|reflexivity].
Qed.

(** X18. The context block of the reply is rendered exactly when the
    session holds no snapshot or a snapshot whose three aggregates and
    every holding's gain/loss percentage are set; otherwise rendering raises.
    The analysis part never raises. *)
Theorem build_context_ok (state : AgentState) :
  is_ok (build_context state)
  = match portfolio_data state with
    | Some portfolio => renderable portfolio
    | None => true
    end.
Proof.
  unfold build_context.
  destruct (portfolio_data state) as [p|]; [|reflexivity].
  rewrite <- portfolio_parts_ok. now destruct (portfolio_parts p).
Qed.

Lemma build_context_unrenderable (state : AgentState) (p : PortfolioData) :
  portfolio_data state = Some p → renderable p = false →
  ∃ e, build_context state = Raise e.
Proof.
  intros Hp Hr. unfold build_context. rewrite Hp.
  rewrite <- portfolio_parts_ok in Hr.
  destruct (portfolio_parts p); [discriminate|]. eauto.
Qed.

Lemma unenriched_holding_unrenderable (p : PortfolioData) (h : PortfolioHolding) :
  h ∈ holdings p → gain_loss_percent h = None → renderable p = false.
Proof.
  intros Hin Hnone. unfold renderable.
  apply andb_false_intro2.
  apply not_true_is_false. intros Hall.
  rewrite forallb_forall in Hall.
  specialize (Hall h (proj1 (list_elem_of_In _ _) Hin)).
  rewrite Hnone in Hall. discriminate.
Qed.

Lemma generate_response_unrenderable (base : LanguageModel)
    (state : AgentState) (p : PortfolioData) :
  portfolio_data state = Some p → renderable p = false →
  @_generate_response _ (with_context base) state
  = append_message state (assistant_message error_response).
Proof.
  intros Hp Hr.
  destruct (build_context_unrenderable _ _ Hp Hr) as (e & He).
  unfold _generate_response, synthesize. cbn [render_context with_context].
  destruct (latest_content state); simpl; [|reflexivity].
  now rewrite He.
Qed.

(** X19. While the session holds a snapshot with a holding that has no
    gain/loss percentage (a symbol without a quote), the Respond step never
    calls the oracle for the reply: it appends the fixed apology. *)
Theorem generate_response_unenriched_apology (base : LanguageModel)
    (state : AgentState) (p : PortfolioData) (h : PortfolioHolding) :
  portfolio_data state = Some p →
  h ∈ holdings p → gain_loss_percent h = None →
  @_generate_response _ (with_context base) state
  = append_message state (assistant_message error_response).
Proof.
  intros Hp Hin Hnone.
  apply (generate_response_unrenderable base state p Hp).
  exact (unenriched_holding_unrenderable _ _ Hin Hnone).
Qed.

End ContextBlock.

(** ** Analyze: which holding goes with which symbol *)

Lemma find_own_holding (hs : list PortfolioHolding) (h : PortfolioHolding) :
  NoDup (symbol <$> hs) → h ∈ hs →
  List.find (fun h' => eq_str (JStr (symbol h)) (symbol h')) hs = Some h.
Proof.
  induction hs as [|h0 hs IH]; intros Hnd Hin; [now apply elem_of_nil in Hin|].
  cbn [fmap list_fmap] in Hnd. apply NoDup_cons in Hnd as [Hfresh Hnd].
  simpl. apply elem_of_cons in Hin as [->|Hin].
  - now rewrite String.eqb_refl.
  - destruct (String.eqb (symbol h) (symbol h0)) eqn:Heq; [|now apply IH].
    apply String.eqb_eq in Heq. exfalso. apply Hfresh. rewrite <- Heq.
    apply list_elem_of_fmap. eauto.
Qed.

Lemma find_other_case (hs : list PortfolioHolding) (sym : string) :
  Forall (fun h => upper (symbol h) = symbol h) hs → upper sym ≠ sym →
  List.find (fun h => eq_str (JStr sym) (symbol h)) hs = None.
Proof.
  intros Hall Hsym. induction Hall as [|h hs Hh _ IH]; [reflexivity|].
  simpl. destruct (String.eqb sym (symbol h)) eqn:Heq; [|exact IH].
  apply String.eqb_eq in Heq. congruence.
Qed.

Section AnalyzeMore.
Context `{!Collaborators}.

Lemma analyze_each_own (p : PortfolioData) (hs : list PortfolioHolding)
    (analyses : list AnalysisResult) :
  NoDup (symbol <$> holdings p) → hs ⊆ holdings p →
  analyze_each p ((fun h => JStr (symbol h)) <$> hs) = Ok analyses →
  Forall2 (fun h a => pa_analyze_symbol (JStr (symbol h)) (Some h) = Ok a)
    hs analyses.
Proof.
  intros Hnd. revert analyses.
  induction hs as [|h hs IH]; intros analyses Hsub;
    cbn [fmap list_fmap analyze_each].
  - intros [= <-]. constructor.
  - rewrite (find_own_holding _ h Hnd) by (apply Hsub; now left).
    destruct (pa_analyze_symbol _ _) as [a|] eqn:Ha;
      cbn [mbind result_bind]; [|discriminate].
    destruct (analyze_each p _) as [rest|] eqn:Hrest;
      cbn [mbind result_bind]; [|discriminate].
    intros [= <-]. constructor; [exact Ha|].
    apply IH; [|reflexivity]. intros x Hx. apply Hsub. now right.
Qed.

Lemma analyze_portfolio_keeps_snapshot (state : AgentState) :
  portfolio_data (_analyze_portfolio state) = portfolio_data state.
Proof.
  unfold _analyze_portfolio.
  destruct (portfolio_data state) as [p|] eqn:Hp; [|exact Hp].
  destruct (analyses_for state p) as [[|a l]|]; exact Hp.
Qed.

(** X16. When the classification extracted no symbol and the symbols of
    the snapshot are distinct, Analyze calls the analyzer once per holding,
    in ledger order, each time with that holding itself; the primary
    analysis is the one of the first holding. *)
Theorem analyze_portfolio_every_holding (state : AgentState)
    (p : PortfolioData) (analyses : list AnalysisResult) :
  portfolio_data state = Some p →
  truthy (default (JList []) (symbols (user_context state))) = false →
  NoDup (symbol <$> holdings p) →
  analyses_for state p = Ok analyses →
  Forall2 (fun h a => pa_analyze_symbol (JStr (symbol h)) (Some h) = Ok a)
    (holdings p) analyses
  ∧ current_analysis (_analyze_portfolio state)
    = match analyses with
      | primary :: _ => Some primary
      | [] => current_analysis state
      end.
Proof.
  intros Hp Hfalsy Hnd Hrun. split.
  - revert Hrun. unfold analyses_for. rewrite Hfalsy. simpl.
    now apply analyze_each_own.
  - unfold _analyze_portfolio. rewrite Hp, Hrun. now destruct analyses.
Qed.

End AnalyzeMore.

(** ** The agent over its own tools *)

Lemma update_keeps_unquoted `{!Builtins, !YahooFinance}
    (portfolio : PortfolioData) (h : PortfolioHolding) :
  h ∈ holdings portfolio → get_market_data (symbol h) = None →
  h ∈ holdings (update_portfolio_with_market_data portfolio).
Proof.
  intros Hin Hnone.
  apply list_elem_of_lookup in Hin as (i & Hi).
  pose proof (update_portfolio_position _ _ _ Hi) as Hi'.
  rewrite Hnone in Hi'. eapply list_elem_of_lookup_2; exact Hi'.
Qed.

Lemma update_keeps_symbols `{!Builtins, !YahooFinance}
    (portfolio : PortfolioData) :
  map symbol (holdings (update_portfolio_with_market_data portfolio))
  = map symbol (holdings portfolio).
Proof.
  destruct (update_portfolio_unfold portfolio)
    as (hs' & tv & tgl & Hloop & ->).
  exact (enrich_holdings_symbols _ _ _ _ _ _ _ Hloop).
Qed.

Lemma ledger_holding_row `{!Builtins} (file : ledger_file)
    (h : PortfolioHolding) :
  h ∈ holdings (get_portfolio_data file) →
  ∃ row : csv_row, Spec.row_holding row = Some h.
Proof.
  destruct (get_portfolio_data_cases file) as (hs & -> & Hhs).
  cbn [holdings]. destruct Hhs as [->|(rows & _ & ->)].
  - intros Hin. now apply elem_of_nil in Hin.
  - intros (row & _ & Hrow)%list_elem_of_omap. eauto.
Qed.

Section OwnTools.
Context `{!Builtins, !Formats, !YahooFinance, !News}.
Variable base : LanguageModel.
Variable file : ledger_file.
Variable analyze_other :
  json → option PortfolioHolding → result AnalysisResult.

Lemma fetch_portfolio_own (state : AgentState) :
  @_fetch_portfolio (tools_collaborators file analyze_other) state
  = set_portfolio_data state
      (Some (update_portfolio_with_market_data (get_portfolio_data file))).
Proof. reflexivity. Qed.

(** X20. A turn that fetches the portfolio while some held symbol has no
    quote ends in the fixed apology, whatever the oracle would have said:
    enrichment returns the holding without a quote with its derived fields
    absent, and the context block cannot be rendered with it. *)
Theorem partial_enrichment_apology (st : AgentState) (m : Message)
    (classified : AgentState) (h : PortfolioHolding) :
  @_process_message (with_context base) (append_message st m) = Ok classified →
  _should_fetch_portfolio classified = fetch_portfolio →
  h ∈ holdings (get_portfolio_data file) →
  get_market_data (symbol h) = None →
  ∃ final : AgentState,
    @graph_ainvoke _ (with_context base)
      (tools_collaborators file analyze_other) (append_message st m)
    = Ok (final, [process_message; fetch_portfolio; analyze_portfolio;
                  generate_response])
    ∧ messages final
      = messages st ++ [m; assistant_message error_response].
Proof.
  intros Hpm Hroute Hin Hnone.
  unfold graph_ainvoke, recursion_limit.
  rewrite run_from_step by discriminate.
  cbn [run_node next_node]. rewrite Hpm. cbn [mbind result_bind app].
  rewrite Hroute.
  do 3 (rewrite run_from_step by discriminate;
        cbn [run_node next_node mbind result_bind app]).
  rewrite run_from_end. eexists. split; [reflexivity|].
  set (pre := _analyze_portfolio (_fetch_portfolio classified)).
  set (p := update_portfolio_with_market_data (get_portfolio_data file)).
  assert (portfolio_data pre = Some p) as Hp.
  { subst pre. rewrite analyze_portfolio_keeps_snapshot.
    now rewrite fetch_portfolio_own. }
  destruct (ledger_holding_row _ _ Hin) as (row & Hrow).
  destruct (row_holding_unenriched _ _ Hrow) as (_ & _ & _ & Hglp).
  pose proof (update_keeps_unquoted _ _ Hin Hnone) as Hin'.
  rewrite (generate_response_unrenderable base pre p Hp
             (unenriched_holding_unrenderable _ _ Hin' Hglp)).
  cbn [append_message messages]. subst pre.
  rewrite analyze_portfolio_messages, fetch_portfolio_messages.
  rewrite (process_message_messages _ _ Hpm). cbn [append_message messages].
  now rewrite <- app_assoc.
Qed.

(** X17. Symbols are matched letter for letter, and the ledger reader
    upper-cases them. On a ledger whose symbol cells are ASCII (where
    [upper] is Python's), a symbol that the classification extracted with a
    lower-case ASCII letter in it is analysed without its holding, even when
    the ledger has it. *)
Theorem lowercase_symbol_without_holding (state : AgentState)
    (sym : string) :
  ascii_symbols file = true →
  symbols (user_context state) = Some (JList [JStr sym]) →
  upper sym ≠ sym →
  let fetched :=
    @_fetch_portfolio (tools_collaborators file analyze_other) state in
  let p := update_portfolio_with_market_data (get_portfolio_data file) in
  portfolio_data fetched = Some p
  ∧ @analyses_for (tools_collaborators file analyze_other) fetched p
    = Ok [analyze_symbol sym None]
  ∧ current_analysis
      (@_analyze_portfolio (tools_collaborators file analyze_other) fetched)
    = Some (analyze_symbol sym None).
Proof.
  intros _ Hsyms Hlow fetched p. subst fetched.
  rewrite fetch_portfolio_own. fold p.
  assert (@analyses_for (tools_collaborators file analyze_other)
            (set_portfolio_data state (Some p)) p
          = Ok [analyze_symbol sym None]) as Hrun.
  { unfold analyses_for. cbn [set_portfolio_data user_context].
    rewrite Hsyms.
    cbn [default from_option id truthy json_iter mbind result_bind
         analyze_each].
    rewrite find_other_case; [reflexivity| |exact Hlow].
    apply Forall_forall. intros h Hin.
    assert (symbol h ∈ map symbol (holdings (get_portfolio_data file))) as Hs.
    { unfold p in Hin. rewrite <- update_keeps_symbols.
      apply (list_elem_of_fmap_2 symbol). exact Hin. }
    apply list_elem_of_fmap in Hs as (h0 & -> & Hin0).
    destruct (ledger_holding_row _ _ Hin0) as (row & Hrow).
    now destruct (row_holding_normalized _ _ Hrow) as (_ & _ & _ & Hup). }
  split; [reflexivity|]. split; [exact Hrun|].
  unfold _analyze_portfolio. cbn [set_portfolio_data portfolio_data].
  now rewrite Hrun.
Qed.

End OwnTools.

Section Commands.
Context `{!Builtins, !LanguageModel, !Collaborators}.

(** X23. The command handlers put their own request in the session and
    then hand the update on, which adds the text of the command itself: the
    reply is synthesised for the command text, not for the request. After
    /portfolio or /analyze SYMBOL the session has three more messages, and
    the latest message at Respond is the command text. /analyze without a
    symbol sends the usage line and adds no message. *)
Theorem command_turn_messages (user_sessions : gmap Z AgentState)
    (user_id : Z) (update_text : string) (arg : string) (args : list string) :
  let session := default new_session (user_sessions !! user_id) in
  (∃ (pre final : AgentState),
     snd (portfolio_command user_sessions user_id update_text)
     = Some (reply_text pre)
     ∧ fst (portfolio_command user_sessions user_id update_text) !! user_id
       = Some final
     ∧ latest_content pre = Ok update_text
     ∧ messages final
       = messages session
         ++ [user_message "Show me my portfolio summary";
             user_message update_text; assistant_message (reply_text pre)])
  ∧ (∃ (pre final : AgentState),
       snd (analyze_command user_sessions user_id update_text (arg :: args))
       = Some (reply_text pre)
       ∧ fst (analyze_command user_sessions user_id update_text (arg :: args))
           !! user_id = Some final
       ∧ latest_content pre = Ok update_text
       ∧ messages final
         = messages session
           ++ [user_message ("Analyze " +:+ upper arg);
               user_message update_text; assistant_message (reply_text pre)])
  ∧ (snd (analyze_command user_sessions user_id update_text [])
     = Some "Please provide a stock symbol. Usage: /analyze AAPL"
     ∧ fst (analyze_command user_sessions user_id update_text []) !! user_id
       = Some session).
Proof.
  intros session.
  assert (∀ (sessions0 : gmap Z AgentState) (s0 : AgentState) (request : string),
    ∃ pre final,
      snd (process_telegram_message
             (<[user_id := append_message s0 (user_message request)]> sessions0)
             user_id update_text) = Some (reply_text pre)
      ∧ fst (process_telegram_message
               (<[user_id := append_message s0 (user_message request)]> sessions0)
               user_id update_text) !! user_id = Some final
      ∧ latest_content pre = Ok update_text
      ∧ messages final
        = messages s0
          ++ [user_message request; user_message update_text;
              assistant_message (reply_text pre)]) as Hturn.
  { intros sessions0 s0 request.
    unfold process_telegram_message, get_or_create_session.
    rewrite lookup_insert_eq.
    destruct (graph_reaches_respond
                (append_message s0 (user_message request))
                (user_message update_text))
      as (pre & visited & Hrun & _ & Hmsgs).
    rewrite Hrun. cbn [mbind result_bind catch fst snd].
    exists pre, (_generate_response pre).
    rewrite generate_response_appends. cbn [append_message messages].
    rewrite last_snoc. cbn [role assistant_message msg_content String.eqb].
    split; [reflexivity|]. split; [now rewrite lookup_insert_eq|].
    split.
    - unfold latest_content. rewrite Hmsgs, last_snoc. reflexivity.
    - rewrite Hmsgs. cbn [append_message messages].
      now rewrite <- !app_assoc. }
  unfold portfolio_command, analyze_command, get_or_create_session.
  subst session.
  destruct (user_sessions !! user_id) as [s|] eqn:Hs; cbn [default from_option id].
  - split; [apply Hturn|]. split; [apply Hturn|]. split; [reflexivity|exact Hs].
  - split; [apply Hturn|]. split; [apply Hturn|].
    split; [reflexivity|]. cbn [fst]. now rewrite lookup_insert_eq.
Qed.

End Commands.

(** ** The record text taken from the oracle's reply *)

Lemma through_last_close_none (s : string) :
  through_last_close s = None ↔ occurs "}" s = false.
Proof.
  induction s as [|c s IH]; simpl; [tauto|].
  destruct (through_last_close s) as [kept|].
  - split; [discriminate|]. intros [_ Hs]%orb_false_elim.
    apply IH in Hs. discriminate.
  - destruct (Ascii.eqb c "}") eqn:Hc; simpl.
    + split; discriminate.
    + split; [intros _; now apply IH|reflexivity].
Qed.

Lemma through_last_close_span (mid post : string) :
  occurs "}" post = false →
  through_last_close (mid +:+ "}" +:+ post) = Some (mid +:+ "}").
Proof.
  intros Hpost. apply through_last_close_none in Hpost.
  induction mid as [|c mid IH].
  - change (through_last_close (String "}" post) = Some "}").
    cbn [through_last_close]. now rewrite Hpost.
  - change (through_last_close (String c (mid +:+ "}" +:+ post))
            = Some (String c (mid +:+ "}"))).
    cbn [through_last_close]. now rewrite IH.
Qed.

Lemma through_last_close_split (s kept : string) :
  through_last_close s = Some kept →
  ∃ mid post, s = mid +:+ "}" +:+ post ∧ kept = mid +:+ "}"
              ∧ occurs "}" post = false.
Proof.
  revert kept. induction s as [|c s IH]; intros kept; simpl; [discriminate|].
  destruct (through_last_close s) as [kept'|] eqn:Hs.
  - intros [= <-]. destruct (IH _ eq_refl) as (mid & post & -> & -> & Hpost).
    now exists (String c mid), post.
  - destruct (Ascii.eqb c "}") eqn:Hc; [|discriminate].
    intros [= <-]. apply Ascii.eqb_eq in Hc as ->.
    exists "", s. repeat split. now apply through_last_close_none.
Qed.

Lemma from_first_open_span (pre rest : string) :
  occurs "{" pre = false →
  from_first_open (pre +:+ "{" +:+ rest) = Some rest.
Proof.
  induction pre as [|c pre IH]; simpl; [reflexivity|].
  intros [-> Hpre]%orb_false_elim. auto.
Qed.

Lemma from_first_open_split (s rest : string) :
  from_first_open s = Some rest →
  ∃ pre, s = pre +:+ "{" +:+ rest ∧ occurs "{" pre = false.
Proof.
  induction s as [|c s IH]; simpl; [discriminate|].
  destruct (Ascii.eqb c "{") eqn:Hc.
  - intros [= <-]. apply Ascii.eqb_eq in Hc as ->. now exists "".
  - intros (pre & -> & Hpre)%IH. exists (String c pre). simpl.
    now rewrite Hc.
Qed.

Lemma from_first_open_none (s : string) :
  from_first_open s = None ↔ occurs "{" s = false.
Proof.
  induction s as [|c s IH]; simpl; [tauto|].
  destruct (Ascii.eqb c "{"); simpl; [split; discriminate|exact IH].
Qed.

Lemma occurs_append (c : ascii) (s t : string) :
  occurs c (s +:+ t) = occurs c s || occurs c t.
Proof.
  induction s as [|c' s IH]; simpl; [reflexivity|].
  now rewrite IH, orb_assoc.
Qed.

(** After any opening brace of a text that has a closing brace after some
    opening brace at or after it, a closing brace follows the first one. *)
Lemma from_first_open_keeps_close (pre rest tail : string) :
  occurs "}" tail = true →
  from_first_open (pre +:+ "{" +:+ tail) = Some rest →
  occurs "}" rest = true.
Proof.
  intros Htail. induction pre as [|c pre IH]; simpl.
  - now intros [= <-].
  - destruct (Ascii.eqb c "{"); [|exact IH].
    intros [= <-]. rewrite !occurs_append, Htail. simpl.
    now rewrite orb_true_r.
Qed.

(** X13. The text handed to the decoder is the span of the reply from its
    first opening brace to its last closing brace, both included, whatever
    lies between them; when no closing brace follows an opening brace there
    is no such span (and the whole reply is decoded instead). So of two
    records in one reply neither is decoded on its own. *)
Theorem re_search_record_span (content : string) :
  match re_search_record content with
  | Some json_str =>
      ∃ pre mid post : string,
        content = pre +:+ "{" +:+ mid +:+ "}" +:+ post
        ∧ json_str = "{" +:+ mid +:+ "}"
        ∧ occurs "{" pre = false ∧ occurs "}" post = false
  | None =>
      ∀ pre mid post : string,
        content ≠ pre +:+ "{" +:+ mid +:+ "}" +:+ post
  end.
Proof.
  unfold re_search_record.
  destruct (from_first_open content) as [rest|] eqn:Hopen; simpl.
  - destruct (from_first_open_split _ _ Hopen) as (pre & -> & Hpre).
    destruct (through_last_close rest) as [kept|] eqn:Hclose; simpl.
    + destruct (through_last_close_split _ _ Hclose)
        as (mid & post & -> & -> & Hpost).
      now exists pre, mid, post.
    + intros pre' mid post Heq.
      apply through_last_close_none in Hclose.
      rewrite Heq in Hopen.
      apply from_first_open_keeps_close in Hopen; [congruence|].
      rewrite occurs_append. simpl. now rewrite orb_true_r.
  - intros pre mid post ->. apply from_first_open_none in Hopen.
    rewrite occurs_append in Hopen. simpl in Hopen.
    now rewrite orb_true_r in Hopen.
Qed.

(** *** On the example ledger and session *)

Lemma process_telegram_message_isolated_example :
  (2 ≠ 1)%Z
  ∧ fst (@process_telegram_message example_builtins example_model
           example_tools {[ 2%Z := first_turn ]} 1%Z "Hello")
      !! 2%Z
    = ({[ 2%Z := first_turn ]} : gmap Z AgentState) !! 2%Z.
Proof.
  assert (2 ≠ 1)%Z as Hne by lia.
  split; [exact Hne|].
  exact (@process_telegram_message_isolated example_builtins example_model
           example_tools {[ 2%Z := first_turn ]} 1%Z 2%Z "Hello" Hne).
Defined.

Lemma analyze_portfolio_every_holding_example :
  Forall2
    (fun h a => @pa_analyze_symbol example_tools (JStr (symbol h)) (Some h)
                = Ok a)
    (holdings three_positions)
    (map (fun h => @analyze_symbol example_builtins example_yahoo quiet_news
                     (symbol h) (Some h))
       (holdings three_positions))
  ∧ current_analysis
      (@_analyze_portfolio example_tools
         (set_portfolio_data new_session (Some three_positions)))
    = Some (@analyze_symbol example_builtins example_yahoo quiet_news "AAPL"
              (Some (ledger_holding "AAPL" 10 100))).
Proof.
  assert (NoDup (symbol <$> holdings three_positions)) as Hnd
    by (apply (bool_decide_unpack (NoDup (symbol <$> holdings three_positions)));
        vm_compute; exact I).
  assert (@analyses_for example_tools
            (set_portfolio_data new_session (Some three_positions))
            three_positions
          = Ok (map (fun h => @analyze_symbol example_builtins example_yahoo
                                quiet_news (symbol h) (Some h))
                  (holdings three_positions))) as Hrun
    by (vm_compute; reflexivity).
  exact (@analyze_portfolio_every_holding example_tools
           (set_portfolio_data new_session (Some three_positions))
           three_positions _ eq_refl eq_refl Hnd Hrun).
Defined.

Lemma generate_response_unenriched_apology_example :
  ledger_holding "GOOG" 5 50 ∈ holdings three_positions_enriched
  ∧ @_generate_response example_builtins example_model
      (set_portfolio_data first_turn (Some three_positions_enriched))
    = append_message
        (set_portfolio_data first_turn (Some three_positions_enriched))
        (@assistant_message example_builtins error_response).
Proof.
  assert (ledger_holding "GOOG" 5 50 ∈ holdings three_positions_enriched)
    as Hin by (apply elem_of_cons; right; apply elem_of_cons; now left).
  split; [exact Hin|].
  exact (@generate_response_unenriched_apology example_builtins
           example_formats partial_reply_model
           (set_portfolio_data first_turn (Some three_positions_enriched))
           three_positions_enriched (ledger_holding "GOOG" 5 50)
           eq_refl Hin eq_refl).
Defined.

Lemma partial_enrichment_apology_example :
  ledger_holding "GOOG" 5 50
  ∈ holdings (@get_portfolio_data example_builtins two_row_ledger)
  ∧ @get_market_data example_yahoo "GOOG" = None
  ∧ ∃ final : AgentState,
      @graph_ainvoke example_builtins example_model example_tools first_turn
      = Ok (final, [process_message; fetch_portfolio; analyze_portfolio;
                    generate_response])
      ∧ messages final
        = [ mkMessage "user" "How is my portfolio doing?" 0;
            @assistant_message example_builtins error_response ].
Proof.
  assert (@_process_message example_model first_turn
          = Ok (set_classification first_turn (JStr "portfolio_query")
                  (JList []) (JBool false))) as Hpm
    by (vm_compute; reflexivity).
  assert (holdings (@get_portfolio_data example_builtins two_row_ledger)
          = [ledger_holding "AAPL" 10 100; ledger_holding "GOOG" 5 50])
    as Hledger by (vm_compute; reflexivity).
  assert (ledger_holding "GOOG" 5 50
          ∈ holdings (@get_portfolio_data example_builtins two_row_ledger))
    as Hin by (rewrite Hledger; apply elem_of_cons; right;
               apply elem_of_cons; now left).
  split; [exact Hin|]. split; [reflexivity|].
  exact (@partial_enrichment_apology example_builtins example_formats
           example_yahoo quiet_news partial_reply_model two_row_ledger
           refuse_other new_session
           (mkMessage "user" "How is my portfolio doing?" 0)
           _ (ledger_holding "GOOG" 5 50)
           Hpm eq_refl Hin eq_refl).
Defined.

Lemma lowercase_symbol_without_holding_example :
  ascii_symbols two_row_ledger = true
  ∧ upper "aapl" ≠ "aapl"
  ∧ @update_portfolio_with_market_data example_builtins example_yahoo
      (@get_portfolio_data example_builtins two_row_ledger)
    = two_rows_enriched
  ∧ @analyses_for example_tools
      (@_fetch_portfolio example_tools lowercase_request) two_rows_enriched
    = Ok [@analyze_symbol example_builtins example_yahoo quiet_news
            "aapl" None].
Proof.
  assert (@update_portfolio_with_market_data example_builtins example_yahoo
            (@get_portfolio_data example_builtins two_row_ledger)
          = two_rows_enriched) as Hup by (vm_compute; reflexivity).
  assert (upper "aapl" ≠ "aapl") as Hlow by (vm_compute; discriminate).
  split; [reflexivity|]. split; [exact Hlow|]. split; [exact Hup|].
  rewrite <- Hup.
  exact (proj1 (proj2
    (@lowercase_symbol_without_holding example_builtins example_yahoo
       quiet_news two_row_ledger refuse_other lowercase_request
       "aapl" eq_refl eq_refl Hlow))).
Defined.

Lemma get_portfolio_data_invariant_example :
  ascii_symbols two_row_ledger = true
  ∧ Forall (fun h => Spec.unenriched h ∧ symbol h ≠ ""
                     ∧ strip (symbol h) = symbol h
                     ∧ upper (symbol h) = symbol h)
      [ledger_holding "AAPL" 10 100; ledger_holding "GOOG" 5 50].
Proof.
  assert (holdings (@get_portfolio_data example_builtins two_row_ledger)
          = [ledger_holding "AAPL" 10 100; ledger_holding "GOOG" 5 50])
    as Hledger by (vm_compute; reflexivity).
  split; [reflexivity|]. rewrite <- Hledger.
  exact (proj1 (@get_portfolio_data_invariant example_builtins
                  two_row_ledger eq_refl)).
Defined.

Lemma get_portfolio_data_complete_rows_example :
  @get_portfolio_data example_builtins two_row_ledger
  = mkPortfolio [ledger_holding "AAPL" 10 100; ledger_holding "GOOG" 5 50]
      (Some 0%float) (Some 0%float) (Some 0%float) (Some 0%Z).
Proof.
  assert (Forall Spec.complete_row
            [ ledger_row (Some "AAPL") (Some "10") (Some "100");
              ledger_row (Some "GOOG") (Some "5") (Some "50") ]) as Hrows
    by (constructor; [|constructor; [|constructor]];
        (repeat split; vm_compute; discriminate)).
  exact (@get_portfolio_data_complete_rows example_builtins _ Hrows).
Defined.
